(** * Tank Fill: volume of a horizontal cylindrical tank and its daily usage

    A shallow embedding of [custom_components/tankfill/calc.py] and of the
    sensor entities of [custom_components/tankfill/sensor.py].

    Numbers.  The Python code computes on binary floating-point numbers;
    here a [float] is idealised as a real number ([R]), so that [+], [-],
    [*], [/] and the comparisons are the exact ones, [math.pi] is [PI],
    [math.acos] and [math.sqrt] are [acos] and [sqrt] on their domains, and
    [round(x, n)] is rounding to [n] decimals, ties to even.  NaN and the
    infinities have no counterpart.

    Module [binary64] embeds the arithmetic of [calc.py] and of the usage
    accumulator a second time, on the binary64 numbers the code computes
    with; it is used to show where the results of the code depart from the
    statements that hold in exact arithmetic.

    Errors.  [math.acos] and [math.sqrt] raise [ValueError] outside their
    domain and [/] raises [ZeroDivisionError]; functions that reach one of
    them return a [result]. *)

From Stdlib Require Import Reals Lra Lia ZArith List String Bool.
From Stdlib Require PrimFloat.
Import ListNotations.

Open Scope R_scope.

(** ** Exceptions *)

Inductive exn : Set :=
| ValueError
| ZeroDivisionError.

Inductive result (A : Type) : Type :=
| Ok (a : A)
| Raise (e : exn).

Arguments Ok {A} a.
Arguments Raise {A} e.

Definition bind {A B : Type} (r : result A) (k : A -> result B) : result B :=
  match r with
  | Ok a => k a
  | Raise e => Raise e
  end.

Notation "x <- r ;; k" := (bind r (fun x => k))
  (at level 61, r at next level, right associativity).

(** ** The [math] module and the built-ins, on real numbers *)

Module math.

Definition pi : R := PI.

(** [math.acos(x)]: [ValueError] unless [-1 <= x <= 1]. *)
Definition acos (x : R) : result R :=
  if Rle_dec (-1) x then
    if Rle_dec x 1 then Ok (Ratan.acos x) else Raise ValueError
  else Raise ValueError.

(** [math.sqrt(x)]: [ValueError] on a negative argument. *)
Definition sqrt (x : R) : result R :=
  if Rle_dec 0 x then Ok (R_sqrt.sqrt x) else Raise ValueError.

End math.

(** [x / y] on floats. *)
Definition truediv (x y : R) : result R :=
  if Req_dec_T y 0 then Raise ZeroDivisionError else Ok (x / y).

(** [max(a, b)]: the first argument unless the second is larger. *)
Definition max (a b : R) : R :=
  if Rlt_dec a b then b else a.

(** Nearest integer, ties to the even one. *)
Definition round_half_even (y : R) : Z :=
  let f := Zfloor y in
  let rest := y - IZR f in
  if Rlt_dec rest (1 / 2) then f
  else if Rlt_dec (1 / 2) rest then (f + 1)%Z
  else if Z.even f then f else (f + 1)%Z.

(** [round(x, ndigits)]. *)
Definition round (x : R) (ndigits : nat) : R :=
  IZR (round_half_even (x * 10 ^ ndigits)) / 10 ^ ndigits.

(** ** calc.py *)

Module calc.

(** Volume of a circular segment in a horizontal cylinder, liquid depth
    measured from the bottom; litres. *)
Definition segment_volume (fill_depth diameter length : R) : result R :=
  if Rle_dec fill_depth 0 then Ok 0
  else if Rge_dec fill_depth diameter then
    let radius := diameter / 2 in
    Ok (math.pi * radius ^ 2 * length / 1000)
  else
    let radius := diameter / 2 in
    let m := radius - fill_depth in
    q <- truediv m radius ;;
    a <- math.acos q ;;
    let area_of_sector := a * radius ^ 2 in
    s <- math.sqrt (2 * radius * fill_depth - fill_depth ^ 2) ;;
    let area_of_triangle := m * s in
    Ok ((area_of_sector - area_of_triangle) * length / 1000).

(** Maximum volume of the tank in litres. *)
Definition max_volume (diameter length : R) : R :=
  let radius := diameter / 2 in
  math.pi * radius ^ 2 * length / 1000.

(** Volume of liquid given the sensor distance from the top. *)
Definition calculate_volume (sensor_distance diameter length : R)
  : result R :=
  if Rge_dec sensor_distance diameter then Ok 0
  else if Rle_dec sensor_distance 0 then Ok (max_volume diameter length)
  else
    let liquid_depth := diameter - sensor_distance in
    if Rle_dec liquid_depth (diameter / 2) then
      segment_volume liquid_depth diameter length
    else
      v <- segment_volume sensor_distance diameter length ;;
      Ok (max_volume diameter length - v).

End calc.

(** ** The host: configuration, clock values and the state machine *)

(** [ConfigEntry]: the entries of [entry.data] and [entry.options] that the
    integration reads. *)
Record ConfigEntry : Type := {
  entry_id : string;
  data_depth_sensor : string;
  data_tank_diameter : R;
  data_tank_length : R;
  options_price_per_litre : option R
}.

Definition DEFAULT_PRICE_PER_LITRE : R := 55 / 100.

(** The states written to Home Assistant, newest first: the unique id of the
    entity and the native value it had when it wrote. *)
Definition hass := list (string * option R).

(** [self.async_write_ha_state()] *)
Definition async_write_ha_state (unique_id : string) (native_value : option R)
  (h : hass) : hass :=
  (unique_id, native_value) :: h.

Module date.

Record t : Set := { year : Z; month : Z; day : Z }.

(** [d1 < d2] on dates. *)
Definition ltb (d1 d2 : t) : bool :=
  (year d1 <? year d2)%Z
  || ((year d1 =? year d2)%Z
      && ((month d1 <? month d2)%Z
          || ((month d1 =? month d2)%Z && (day d1 <? day d2)%Z))).

End date.

Module datetime.

Record t : Set := {
  year : Z; month : Z; day : Z;
  hour : Z; minute : Z; second : Z; microsecond : Z;
  tzinfo : option Z
}.

(** [self.date()] *)
Definition date (self : t) : date.t :=
  {| date.year := year self; date.month := month self;
     date.day := day self |}.

(** [self.replace(hour=.., minute=.., second=.., microsecond=..)] *)
Definition replace (self : t) (hour' minute' second' microsecond' : Z) : t :=
  {| year := year self; month := month self; day := day self;
     hour := hour'; minute := minute'; second := second';
     microsecond := microsecond'; tzinfo := tzinfo self |}.

End datetime.

(** The library functions the integration calls on strings: [float(s)],
    [datetime.fromisoformat(s)] ([None] stands for the [ValueError] or
    [TypeError] they raise) and [dt.isoformat()]. *)
Class PythonLib : Type := {
  float : string -> option R;
  fromisoformat : string -> option datetime.t;
  isoformat : datetime.t -> string
}.

(** The state object of an entity, [event.data["new_state"]]. *)
Record State : Set := { state : string }.

Record Event : Set := { new_state : option State }.

(** ** sensor.py: the entities *)

Module TankOilDepthSensor.

Record t : Type := {
  _entry : ConfigEntry;
  _attr_unique_id : string;
  _attr_native_value : option R
}.

Definition __init__ (entry : ConfigEntry) : t :=
  {| _entry := entry;
     _attr_unique_id := String.append (entry_id entry) "_oil_depth";
     _attr_native_value := None |}.

Definition update_depth (depth : R) (self : t) (h : hass) : t * hass :=
  let self' :=
    {| _entry := _entry self;
       _attr_unique_id := _attr_unique_id self;
       _attr_native_value := Some (round (max depth 0) 1) |} in
  (self',
   async_write_ha_state (_attr_unique_id self') (_attr_native_value self') h).

End TankOilDepthSensor.

Module TankVolumeSensor.

Record t : Type := {
  _entry : ConfigEntry;
  _attr_unique_id : string;
  _diameter : R;
  _length : R;
  _attr_native_value : option R
}.

Definition __init__ (entry : ConfigEntry) (diameter length : R) : t :=
  {| _entry := entry;
     _attr_unique_id := String.append (entry_id entry) "_volume";
     _diameter := diameter;
     _length := length;
     _attr_native_value := None |}.

Definition update_volume (volume : R) (self : t) (h : hass) : t * hass :=
  let self' :=
    {| _entry := _entry self;
       _attr_unique_id := _attr_unique_id self;
       _diameter := _diameter self;
       _length := _length self;
       _attr_native_value := Some (round volume 1) |} in
  (self',
   async_write_ha_state (_attr_unique_id self') (_attr_native_value self') h).

End TankVolumeSensor.

Module TankFillPercentageSensor.

Record t : Type := {
  _entry : ConfigEntry;
  _attr_unique_id : string;
  _diameter : R;
  _length : R;
  _attr_native_value : option R
}.

Definition __init__ (entry : ConfigEntry) (diameter length : R) : t :=
  {| _entry := entry;
     _attr_unique_id := String.append (entry_id entry) "_fill_percentage";
     _diameter := diameter;
     _length := length;
     _attr_native_value := None |}.

Definition update_percentage (volume max_vol : R) (self : t) (h : hass)
  : result (t * hass) :=
  value <-
    (if Rgt_dec max_vol 0 then
       q <- truediv volume max_vol ;;
       Ok (round (q * 100) 1)
     else Ok 0) ;;
  let self' :=
    {| _entry := _entry self;
       _attr_unique_id := _attr_unique_id self;
       _diameter := _diameter self;
       _length := _length self;
       _attr_native_value := Some value |} in
  Ok (self',
      async_write_ha_state (_attr_unique_id self')
        (_attr_native_value self') h).

End TankFillPercentageSensor.

Module TankDailyCostSensor.

Record t : Type := {
  _entry : ConfigEntry;
  _attr_unique_id : string;
  _price_per_litre : R;
  _attr_native_value : option R
}.

Definition __init__ (entry : ConfigEntry) (price_per_litre : R) : t :=
  {| _entry := entry;
     _attr_unique_id := String.append (entry_id entry) "_daily_cost";
     _price_per_litre := price_per_litre;
     _attr_native_value := Some 0 |}.

Definition update_cost (daily_usage : R) (self : t) (h : hass) : t * hass :=
  let self' :=
    {| _entry := _entry self;
       _attr_unique_id := _attr_unique_id self;
       _price_per_litre := _price_per_litre self;
       _attr_native_value :=
         Some (round (daily_usage * _price_per_litre self) 2) |} in
  (self',
   async_write_ha_state (_attr_unique_id self') (_attr_native_value self') h).

End TankDailyCostSensor.

(** ** sensor.py: the persisted snapshot *)

(** The restored JSON object, [dict[str, Any]], at the five keys the code
    reads and at the types [DailyUsageStoredData.__init__] annotates; a key
    is absent ([None]) or holds a value, which may itself be Python's
    [None]. *)
Record dict : Type := {
  key_native_value : option (option R);
  key_native_unit_of_measurement : option (option string);
  key_daily_usage : option R;
  key_last_volume : option (option R);
  key_last_reset : option string
}.

(** [d.get(key)] for a key whose value may be [None]. *)
Definition get {A : Type} (entry : option (option A)) : option A :=
  match entry with
  | Some v => v
  | None => None
  end.

(** [d.get(key, default)] *)
Definition get_default {A : Type} (entry : option A) (default : A) : A :=
  match entry with
  | Some v => v
  | None => default
  end.

(** The base class of the stored data.  Home Assistant's class is not part
    of the repository; this follows the stand-in that tests/conftest.py
    installs for it. *)
Module SensorExtraStoredData.

Record t : Type := {
  native_value : option R;
  native_unit_of_measurement : option string
}.

Definition as_dict (self : t) : dict :=
  {| key_native_value := Some (native_value self);
     key_native_unit_of_measurement := Some (native_unit_of_measurement self);
     key_daily_usage := None;
     key_last_volume := None;
     key_last_reset := None |}.

Definition from_dict (data : dict) : option t :=
  match key_native_value data with
  | None => None
  | Some _ =>
      Some {| native_value := get (key_native_value data);
              native_unit_of_measurement :=
                get (key_native_unit_of_measurement data) |}
  end.

End SensorExtraStoredData.

Module DailyUsageStoredData.

Record t : Type := {
  super : SensorExtraStoredData.t;
  daily_usage : R;
  last_volume : option R;
  last_reset : string
}.

Definition __init__ (super_data : SensorExtraStoredData.t)
  (daily_usage : R) (last_volume : option R) (last_reset : string) : t :=
  {| super :=
       {| SensorExtraStoredData.native_value :=
            SensorExtraStoredData.native_value super_data;
          SensorExtraStoredData.native_unit_of_measurement :=
            SensorExtraStoredData.native_unit_of_measurement super_data |};
     daily_usage := daily_usage;
     last_volume := last_volume;
     last_reset := last_reset |}.

Definition as_dict (self : t) : dict :=
  let data := SensorExtraStoredData.as_dict (super self) in
  {| key_native_value := key_native_value data;
     key_native_unit_of_measurement := key_native_unit_of_measurement data;
     key_daily_usage := Some (daily_usage self);
     key_last_volume := Some (last_volume self);
     key_last_reset := Some (last_reset self) |}.

Definition from_dict (restored : dict) : option t :=
  match SensorExtraStoredData.from_dict restored with
  | None => None
  | Some extra =>
      Some (__init__ extra
              (get_default (key_daily_usage restored) 0)
              (get (key_last_volume restored))
              (get_default (key_last_reset restored) ""%string))
  end.

End DailyUsageStoredData.

(** ** sensor.py: the daily usage sensor *)

Module TankDailyUsageSensor.

(** [_cost_sensor] is the only reference through which the cost sensor is
    updated, so the referenced object is kept inside the record. *)
Record t : Type := {
  _entry : ConfigEntry;
  _attr_unique_id : string;
  _attr_native_value : option R;
  _attr_last_reset : option datetime.t;
  _daily_usage : R;
  _last_volume : option R;
  _cost_sensor : option TankDailyCostSensor.t
}.

Definition __init__ (entry : ConfigEntry) : t :=
  {| _entry := entry;
     _attr_unique_id := String.append (entry_id entry) "_daily_usage";
     _attr_native_value := None;
     _attr_last_reset := None;
     _daily_usage := 0;
     _last_volume := None;
     _cost_sensor := None |}.

Definition set_cost_sensor (cost_sensor : TankDailyCostSensor.t) (self : t)
  : t :=
  {| _entry := _entry self;
     _attr_unique_id := _attr_unique_id self;
     _attr_native_value := _attr_native_value self;
     _attr_last_reset := _attr_last_reset self;
     _daily_usage := _daily_usage self;
     _last_volume := _last_volume self;
     _cost_sensor := Some cost_sensor |}.

(** The property [extra_restore_state_data]; [now] is the value of
    [dt_util.now()] when it is read. *)
Definition extra_restore_state_data `{PythonLib} (now : datetime.t)
  (self : t) : DailyUsageStoredData.t :=
  DailyUsageStoredData.__init__
    {| SensorExtraStoredData.native_value := _attr_native_value self;
       SensorExtraStoredData.native_unit_of_measurement := Some "L"%string |}
    (_daily_usage self)
    (_last_volume self)
    (isoformat now).

(** [async_added_to_hass]: [last_extra_data] is what
    [async_get_last_extra_data()] returns, as a dict, and [now] the value
    of [dt_util.now()].  Registering the midnight timer changes nothing in
    the sensor. *)
Definition async_added_to_hass `{PythonLib} (last_extra_data : option dict)
  (now : datetime.t) (self : t) : t :=
  match last_extra_data with
  | None => self
  | Some extra_data =>
      match DailyUsageStoredData.from_dict extra_data with
      | None => self
      | Some last_data =>
          let last_reset_str := DailyUsageStoredData.last_reset last_data in
          let adopted :=
            (DailyUsageStoredData.daily_usage last_data,
             DailyUsageStoredData.last_volume last_data,
             _attr_last_reset self) in
          let '(daily_usage, last_volume, attr_last_reset) :=
            if String.eqb last_reset_str "" then adopted
            else
              match fromisoformat last_reset_str with
              | Some last_reset_dt =>
                  if date.ltb (datetime.date last_reset_dt)
                       (datetime.date now)
                  then (0, None, Some (datetime.replace now 0 0 0 0))
                  else adopted
              | None => adopted
              end in
          {| _entry := _entry self;
             _attr_unique_id := _attr_unique_id self;
             _attr_native_value := Some (round daily_usage 1);
             _attr_last_reset := attr_last_reset;
             _daily_usage := daily_usage;
             _last_volume := last_volume;
             _cost_sensor := _cost_sensor self |}
      end
  end.

(** [_async_midnight_reset(self, now)]: the argument is not used, the
    reset time is read from the clock ([dt_util.now()], here [clock]). *)
Definition _async_midnight_reset (now : datetime.t) (clock : datetime.t)
  (self : t) (h : hass) : t * hass :=
  let self' :=
    {| _entry := _entry self;
       _attr_unique_id := _attr_unique_id self;
       _attr_native_value := Some 0;
       _attr_last_reset := Some (datetime.replace clock 0 0 0 0);
       _daily_usage := 0;
       _last_volume := None;
       _cost_sensor := _cost_sensor self |} in
  let h' :=
    async_write_ha_state (_attr_unique_id self') (_attr_native_value self')
      h in
  match _cost_sensor self' with
  | Some cost_sensor =>
      let '(cost_sensor', h'') :=
        TankDailyCostSensor.update_cost 0 cost_sensor h' in
      ({| _entry := _entry self';
          _attr_unique_id := _attr_unique_id self';
          _attr_native_value := _attr_native_value self';
          _attr_last_reset := _attr_last_reset self';
          _daily_usage := _daily_usage self';
          _last_volume := _last_volume self';
          _cost_sensor := Some cost_sensor' |}, h'')
  | None => (self', h')
  end.

Definition update_usage (new_volume : R) (self : t) (h : hass) : t * hass :=
  let daily_usage :=
    match _last_volume self with
    | Some last_volume =>
        if Rlt_dec new_volume last_volume
        then _daily_usage self + (last_volume - new_volume)
        else _daily_usage self
    | None => _daily_usage self
    end in
  let self' :=
    {| _entry := _entry self;
       _attr_unique_id := _attr_unique_id self;
       _attr_native_value := Some (round daily_usage 1);
       _attr_last_reset := _attr_last_reset self;
       _daily_usage := daily_usage;
       _last_volume := Some new_volume;
       _cost_sensor := _cost_sensor self |} in
  let h' :=
    async_write_ha_state (_attr_unique_id self') (_attr_native_value self')
      h in
  match _cost_sensor self' with
  | Some cost_sensor =>
      let '(cost_sensor', h'') :=
        TankDailyCostSensor.update_cost (_daily_usage self') cost_sensor h' in
      ({| _entry := _entry self';
          _attr_unique_id := _attr_unique_id self';
          _attr_native_value := _attr_native_value self';
          _attr_last_reset := _attr_last_reset self';
          _daily_usage := _daily_usage self';
          _last_volume := _last_volume self';
          _cost_sensor := Some cost_sensor' |}, h'')
  | None => (self', h')
  end.

End TankDailyUsageSensor.

(** ** sensor.py: the platform set-up and the state-change handler *)

(** The entities that [async_setup_entry] creates and its handler closes
    over; the cost sensor is the one wired into the daily usage sensor. *)
Record entities : Type := {
  oil_depth_sensor : TankOilDepthSensor.t;
  volume_sensor : TankVolumeSensor.t;
  percentage_sensor : TankFillPercentageSensor.t;
  daily_usage_sensor : TankDailyUsageSensor.t
}.

(** The first part of [async_setup_entry]: the sensors and the wiring of the
    daily usage sensor to the daily cost sensor. *)
Definition setup_entities (entry : ConfigEntry) : entities :=
  let diameter := data_tank_diameter entry in
  let length := data_tank_length entry in
  let price :=
    get_default (options_price_per_litre entry) DEFAULT_PRICE_PER_LITRE in
  let daily_usage_sensor := TankDailyUsageSensor.__init__ entry in
  let daily_cost_sensor := TankDailyCostSensor.__init__ entry price in
  {| oil_depth_sensor := TankOilDepthSensor.__init__ entry;
     volume_sensor := TankVolumeSensor.__init__ entry diameter length;
     percentage_sensor :=
       TankFillPercentageSensor.__init__ entry diameter length;
     daily_usage_sensor :=
       TankDailyUsageSensor.set_cost_sensor daily_cost_sensor
         daily_usage_sensor |}.

(** [new_state.state in ("unknown", "unavailable")] *)
Definition is_unknown_or_unavailable (s : string) : bool :=
  String.eqb s "unknown" || String.eqb s "unavailable".

(** The handler of depth sensor state changes; [diameter] and [length] are
    the variables of [async_setup_entry] it closes over. *)
Definition _async_sensor_changed `{PythonLib} (diameter length : R)
  (event : Event) (w : entities) (h : hass) : result (entities * hass) :=
  match new_state event with
  | None => Ok (w, h)
  | Some new_state =>
      if is_unknown_or_unavailable (state new_state) then Ok (w, h)
      else
        match float (state new_state) with
        | None => Ok (w, h)
        | Some depth =>
            let liquid_depth := diameter - depth in
            volume <- calc.calculate_volume depth diameter length ;;
            let max_vol := calc.max_volume diameter length in
            let '(oil_depth_sensor', h1) :=
              TankOilDepthSensor.update_depth liquid_depth
                (oil_depth_sensor w) h in
            let '(volume_sensor', h2) :=
              TankVolumeSensor.update_volume volume (volume_sensor w) h1 in
            r <- TankFillPercentageSensor.update_percentage volume max_vol
                   (percentage_sensor w) h2 ;;
            let '(percentage_sensor', h3) := r in
            let '(daily_usage_sensor', h4) :=
              TankDailyUsageSensor.update_usage volume (daily_usage_sensor w)
                h3 in
            Ok ({| oil_depth_sensor := oil_depth_sensor';
                   volume_sensor := volume_sensor';
                   percentage_sensor := percentage_sensor';
                   daily_usage_sensor := daily_usage_sensor' |}, h4)
        end
  end.

(** A sequence of volume samples fed one at a time to [update_usage]. *)
Fixpoint feed (volumes : list R) (self : TankDailyUsageSensor.t) (h : hass)
  : TankDailyUsageSensor.t * hass :=
  match volumes with
  | [] => (self, h)
  | v :: volumes' =>
      let '(self', h') := TankDailyUsageSensor.update_usage v self h in
      feed volumes' self' h'
  end.

(** [volumes] goes strictly down from [v0]: [v0 > v1 > ... > vN]. *)
Fixpoint decreasing_from (v0 : R) (volumes : list R) : Prop :=
  match volumes with
  | [] => True
  | v :: volumes' => v < v0 /\ decreasing_from v volumes'
  end.

(** The states a daily usage sensor goes through: it is constructed, wired,
    restored once it is added (from nothing, or from the snapshot that some
    earlier sensor state left in the store), reset at midnight and fed
    volume samples. *)
Inductive reachable `{PythonLib} : TankDailyUsageSensor.t -> Prop :=
| reachable_init (entry : ConfigEntry) :
    reachable (TankDailyUsageSensor.__init__ entry)
| reachable_set_cost_sensor (self : TankDailyUsageSensor.t)
    (cost_sensor : TankDailyCostSensor.t) :
    reachable self ->
    reachable (TankDailyUsageSensor.set_cost_sensor cost_sensor self)
| reachable_added_no_data (self : TankDailyUsageSensor.t) (now : datetime.t) :
    reachable self ->
    reachable (TankDailyUsageSensor.async_added_to_hass None now self)
| reachable_added_restored (self stored : TankDailyUsageSensor.t)
    (stored_at now : datetime.t) :
    reachable self ->
    reachable stored ->
    reachable
      (TankDailyUsageSensor.async_added_to_hass
         (Some (DailyUsageStoredData.as_dict
                  (TankDailyUsageSensor.extra_restore_state_data stored_at
                     stored)))
         now self)
| reachable_midnight_reset (self : TankDailyUsageSensor.t)
    (now clock : datetime.t) (h : hass) :
    reachable self ->
    reachable (fst (TankDailyUsageSensor._async_midnight_reset now clock self h))
| reachable_update_usage (self : TankDailyUsageSensor.t) (new_volume : R)
    (h : hass) :
    reachable self ->
    reachable (fst (TankDailyUsageSensor.update_usage new_volume self h)).

(** [volumes] never goes down from [v0]: [v0 <= v1 <= ... <= vN]. *)
Fixpoint nondecreasing_from (v0 : R) (volumes : list R) : Prop :=
  match volumes with
  | [] => True
  | v :: volumes' => v0 <= v /\ nondecreasing_from v volumes'
  end.

(** [async_setup_entry]: the entities are created and wired, handed to the
    host ([async_add_entities], which adds them later) and the handler is
    registered; then the current state of the depth sensor,
    [hass.states.get(depth_sensor_id)], here [current_state], is processed
    at once. *)
Definition async_setup_entry `{PythonLib} (entry : ConfigEntry)
  (current_state : option State) (h : hass) : result (entities * hass) :=
  let diameter := data_tank_diameter entry in
  let length := data_tank_length entry in
  let w := setup_entities entry in
  match current_state with
  | None => Ok (w, h)
  | Some current_state =>
      if negb (is_unknown_or_unavailable (state current_state)) then
        match float (state current_state) with
        | None => Ok (w, h)
        | Some depth =>
            let liquid_depth := diameter - depth in
            volume <- calc.calculate_volume depth diameter length ;;
            let max_vol := calc.max_volume diameter length in
            let '(oil_depth_sensor', h1) :=
              TankOilDepthSensor.update_depth liquid_depth
                (oil_depth_sensor w) h in
            let '(volume_sensor', h2) :=
              TankVolumeSensor.update_volume volume (volume_sensor w) h1 in
            r <- TankFillPercentageSensor.update_percentage volume max_vol
                   (percentage_sensor w) h2 ;;
            let '(percentage_sensor', h3) := r in
            let '(daily_usage_sensor', h4) :=
              TankDailyUsageSensor.update_usage volume (daily_usage_sensor w)
                h3 in
            Ok ({| oil_depth_sensor := oil_depth_sensor';
                   volume_sensor := volume_sensor';
                   percentage_sensor := percentage_sensor';
                   daily_usage_sensor := daily_usage_sensor' |}, h4)
        end
      else Ok (w, h)
  end.

(** ** Sample values *)

Definition sample_entry : ConfigEntry :=
  {| entry_id := "tank";
     data_depth_sensor := "sensor.tank_depth";
     data_tank_diameter := 2501 / 25;
     data_tank_length := 200;
     options_price_per_litre := None |}.

Definition sample_stored_at : datetime.t :=
  {| datetime.year := 2025; datetime.month := 1; datetime.day := 14;
     datetime.hour := 23; datetime.minute := 50; datetime.second := 0;
     datetime.microsecond := 0; datetime.tzinfo := None |}.

Definition sample_now : datetime.t :=
  {| datetime.year := 2025; datetime.month := 1; datetime.day := 15;
     datetime.hour := 8; datetime.minute := 30; datetime.second := 0;
     datetime.microsecond := 0; datetime.tzinfo := None |}.

(** The library functions on the few strings the samples use. *)
Definition sample_lib : PythonLib :=
  {| float := fun s =>
       if String.eqb s "42.5" then Some (85 / 2)
       else if String.eqb s "120" then Some 120
       else if String.eqb s "-0.001" then Some (- (1 / 1000))
       else None;
     fromisoformat := fun s =>
       if String.eqb s "2025-01-14T23:50:00" then Some sample_stored_at
       else if String.eqb s "2025-01-15T08:30:00" then Some sample_now
       else None;
     isoformat := fun d =>
       if (datetime.day d =? 14)%Z then "2025-01-14T23:50:00"%string
       else "2025-01-15T08:30:00"%string |}.

(** A snapshot written on 14 January 2025. *)
Definition sample_snapshot : dict :=
  {| key_native_value := Some (Some (25 / 2));
     key_native_unit_of_measurement := Some (Some "L"%string);
     key_daily_usage := Some (25 / 2);
     key_last_volume := Some (Some 450);
     key_last_reset := Some "2025-01-14T23:50:00"%string |}.

(** Library functions that read two in-range distances. *)
Definition sample_readings_lib : PythonLib :=
  {| float := fun s =>
       if String.eqb s "42.5" then Some (85 / 2)
       else if String.eqb s "60" then Some 60
       else None;
     fromisoformat := fun _ => None;
     isoformat := fun _ => ""%string |}.

(** ** The arithmetic of the code: binary64 *)

Set Warnings "-inexact-float".

Module binary64.

Import PrimFloat.

(** [float ** 2] adds [OverflowError] to the exceptions. *)
Inductive exn : Set :=
| ValueError
| ZeroDivisionError
| OverflowError.

Inductive result (A : Type) : Type :=
| Ok (a : A)
| Raise (e : exn).

Arguments Ok {A} a.
Arguments Raise {A} e.

Definition bind {A B : Type} (r : result A) (k : A -> result B) : result B :=
  match r with
  | Ok a => k a
  | Raise e => Raise e
  end.

Local Notation "x <-- r ;; k" := (bind r (fun x => k))
  (at level 61, r at next level, right associativity).

(** The C library's [acos] under [math.acos]. *)
Class Libm : Set := { acos : float -> float }.

(** [math.pi] *)
Definition pi : float := 3.141592653589793%float.

(** [math.acos(x)]: a NaN goes through, [ValueError] outside [[-1, 1]]. *)
Definition math_acos `{Libm} (x : float) : result float :=
  if is_nan x then Ok x
  else if (leb (-1) x && leb x 1)%bool then Ok (acos x)
  else Raise ValueError.

(** [math.sqrt(x)]: [ValueError] below zero. *)
Definition math_sqrt (x : float) : result float :=
  if ltb x 0 then Raise ValueError else Ok (sqrt x).

(** [x / y] *)
Definition truediv (x y : float) : result float :=
  if eqb y 0 then Raise ZeroDivisionError else Ok (div x y).

(** [x ** 2]: [OverflowError] when the square of a finite number is not. *)
Definition pow2 (x : float) : result float :=
  let y := mul x x in
  if (is_infinity y && negb (is_infinity x))%bool then Raise OverflowError
  else Ok y.

Definition segment_volume `{Libm} (fill_depth diameter length : float)
  : result float :=
  if leb fill_depth 0 then Ok 0%float
  else if leb diameter fill_depth then
    let radius := div diameter 2 in
    r2 <-- pow2 radius ;;
    Ok (div (mul (mul pi r2) length) 1000)
  else
    let radius := div diameter 2 in
    let m := sub radius fill_depth in
    q <-- truediv m radius ;;
    a <-- math_acos q ;;
    r2 <-- pow2 radius ;;
    let area_of_sector := mul a r2 in
    f2 <-- pow2 fill_depth ;;
    s <-- math_sqrt (sub (mul (mul 2 radius) fill_depth) f2) ;;
    let area_of_triangle := mul m s in
    Ok (div (mul (sub area_of_sector area_of_triangle) length) 1000).

Definition max_volume (diameter length : float) : result float :=
  let radius := div diameter 2 in
  r2 <-- pow2 radius ;;
  Ok (div (mul (mul pi r2) length) 1000).

Definition calculate_volume `{Libm} (sensor_distance diameter length : float)
  : result float :=
  if leb diameter sensor_distance then Ok 0%float
  else if leb sensor_distance 0 then max_volume diameter length
  else
    let liquid_depth := sub diameter sensor_distance in
    if leb liquid_depth (div diameter 2) then
      segment_volume liquid_depth diameter length
    else
      full <-- max_volume diameter length ;;
      v <-- segment_volume sensor_distance diameter length ;;
      Ok (sub full v).

(** The two fields of [TankDailyUsageSensor] that [update_usage] computes
    with; what it publishes is in the embedding above. *)
Record accumulator : Set := {
  _daily_usage : float;
  _last_volume : option float
}.

Definition update_usage (new_volume : float) (self : accumulator)
  : accumulator :=
  {| _daily_usage :=
       match _last_volume self with
       | Some last_volume =>
           if ltb new_volume last_volume
           then add (_daily_usage self) (sub last_volume new_volume)
           else _daily_usage self
       | None => _daily_usage self
       end;
     _last_volume := Some new_volume |}.

Fixpoint feed (volumes : list float) (self : accumulator) : accumulator :=
  match volumes with
  | [] => self
  | v :: volumes' => feed volumes' (update_usage v self)
  end.

(** [math.acos] at the one argument the samples reach: [acos(1.0)] is
    [0.0]. *)
Definition sample_libm : Libm :=
  {| acos := fun x => if eqb x 1 then 0%float else nan |}.

End binary64.

(** * Properties *)

(** ** Geometry *)

Section Geometry.

Import calc.

(** [acos] is strictly decreasing on [[-1, 1]]. *)
Lemma acos_strictly_decreasing (u1 u2 : R) :
  -1 <= u1 -> u1 < u2 -> u2 <= 1 -> acos u2 < acos u1.
Proof.
  intros Hlo Hlt Hhi.
  destruct (Rlt_le_dec (acos u2) (acos u1)) as [Hd | Hd]; [exact Hd |].
  exfalso.
  pose proof (acos_bound u1) as [B1 B1'].
  pose proof (acos_bound u2) as [B2 B2'].
  pose proof (cos_decr_1 _ _ B1 B1' B2 B2' Hd) as Hc.
  rewrite !cos_acos in Hc by lra.
  lra.
Qed.

(** The area factor [t - sin t * cos t] grows strictly with the angle. *)
Lemma sector_minus_triangle_increasing (t1 t2 : R) :
  0 <= t1 -> t1 < t2 -> t2 <= PI ->
  t1 - sin t1 * cos t1 < t2 - sin t2 * cos t2.
Proof.
  intros H0 Hlt HPI.
  assert (Hid : sin t2 * cos t2 - sin t1 * cos t1
                = sin (t2 - t1) * cos (t2 + t1)).
  { rewrite sin_minus, cos_plus.
    pose proof (sin2_cos2 t1) as E1.
    pose proof (sin2_cos2 t2) as E2.
    unfold Rsqr in E1, E2.
    replace ((sin t2 * cos t1 - cos t2 * sin t1)
             * (cos t2 * cos t1 - sin t2 * sin t1))
      with (sin t2 * cos t2 * (sin t1 * sin t1 + cos t1 * cos t1)
            - sin t1 * cos t1 * (sin t2 * sin t2 + cos t2 * cos t2))
      by ring.
    rewrite E1, E2. ring. }
  assert (Hpos : 0 < t2 - t1) by lra.
  pose proof (sin_lt_x _ Hpos) as Hsin.
  pose proof (COS_bound (t2 + t1)) as [_ Hcos].
  destruct (Rle_lt_dec (sin (t2 - t1)) 0) as [Hs | Hs].
  - (* only at t2 - t1 = PI *)
    assert (0 <= sin (t2 - t1)) by (apply sin_ge_0; lra).
    assert (Hz : sin (t2 - t1) = 0) by lra.
    rewrite Hz in Hid. lra.
  - assert (sin (t2 - t1) * cos (t2 + t1) <= sin (t2 - t1) * 1)
      by (apply Rmult_le_compat_l; lra).
    lra.
Qed.

(** In range, no operation of [segment_volume] raises, and the result is
    the sector minus the triangle at the angle [acos ((r - x) / r)]. *)
Lemma segment_volume_in_range (x d l : R) :
  0 < x < d ->
  let r := d / 2 in
  let t := acos ((r - x) / r) in
  segment_volume x d l = Ok (r ^ 2 * (t - sin t * cos t) * l / 1000).
Proof.
  intros [Hx Hd] r t.
  assert (Hr : 0 < r) by (unfold r; lra).
  assert (Hu : -1 < (r - x) / r < 1).
  { split.
    - apply Rmult_lt_reg_r with r; [exact Hr |].
      unfold Rdiv. rewrite Rmult_assoc, Rinv_l by lra. unfold r. lra.
    - apply Rmult_lt_reg_r with r; [exact Hr |].
      unfold Rdiv. rewrite Rmult_assoc, Rinv_l by lra. unfold r. lra. }
  unfold segment_volume.
  destruct (Rle_dec x 0) as [? | _]; [lra |].
  destruct (Rge_dec x d) as [? | _]; [lra |].
  fold r. unfold truediv.
  destruct (Req_dec_T r 0) as [? | _]; [lra |].
  cbn [bind]. unfold math.acos.
  destruct (Rle_dec (-1) ((r - x) / r)) as [_ | ?]; [| lra].
  destruct (Rle_dec ((r - x) / r) 1) as [_ | ?]; [| lra].
  cbn [bind]. unfold math.sqrt.
  assert (Hrad : 0 <= 2 * r * x - x ^ 2) by (unfold r; nra).
  destruct (Rle_dec 0 (2 * r * x - x ^ 2)) as [_ | ?]; [| lra].
  cbn [bind]. fold t.
  assert (Hcos : cos t = (r - x) / r) by (apply cos_acos; lra).
  assert (Hsin : r * sin t = sqrt (2 * r * x - x ^ 2)).
  { unfold t. rewrite sin_acos by lra.
    rewrite <- (sqrt_pow2 r) at 1 by lra.
    rewrite <- sqrt_mult_alt by (apply pow2_ge_0).
    f_equal. unfold Rsqr. field. lra. }
  rewrite <- Hsin.
  f_equal.
  replace (r - x) with (r * cos t) by (rewrite Hcos; field; lra).
  unfold Rdiv. ring.
Qed.

Lemma max_volume_eq (d l : R) :
  max_volume d l = PI * (d / 2) ^ 2 * l / 1000.
Proof. reflexivity. Qed.

(** [calculate_volume] and the segment of the liquid depth, in range. *)
Lemma calculate_volume_in_range (s d l : R) :
  0 < s < d ->
  let r := d / 2 in
  let t := acos ((r - (d - s)) / r) in
  calculate_volume s d l = Ok (r ^ 2 * (t - sin t * cos t) * l / 1000)
  /\ segment_volume (d - s) d l
     = Ok (r ^ 2 * (t - sin t * cos t) * l / 1000).
Proof.
  intros [Hs Hd] r t.
  assert (Hseg : segment_volume (d - s) d l
                 = Ok (r ^ 2 * (t - sin t * cos t) * l / 1000)).
  { apply segment_volume_in_range. lra. }
  split; [| exact Hseg].
  unfold calculate_volume.
  destruct (Rge_dec s d) as [? | _]; [lra |].
  destruct (Rle_dec s 0) as [? | _]; [lra |].
  destruct (Rle_dec (d - s) (d / 2)) as [_ | _]; [exact Hseg |].
  rewrite (segment_volume_in_range s d l) by lra.
  cbn [bind]. fold r. f_equal.
  set (t' := acos ((r - s) / r)).
  assert (Ht : t = PI - t').
  { unfold t, t'. rewrite <- acos_opp. f_equal. unfold r. field. lra. }
  rewrite Ht, max_volume_eq. fold r.
  replace (sin (PI - t')) with (sin t') by (symmetry; apply sin_PI_x).
  replace (cos (PI - t')) with (- cos t')
    by (rewrite cos_minus, cos_PI, sin_PI; ring).
  unfold Rdiv. ring.
Qed.

(** [calculate_volume] raises for no argument at all. *)
Lemma calculate_volume_total (s d l : R) :
  exists v, calculate_volume s d l = Ok v.
Proof.
  destruct (Rle_lt_dec d s) as [H1 | H1].
  { exists 0. unfold calculate_volume.
    destruct (Rge_dec s d) as [_ | ?]; [reflexivity | lra]. }
  destruct (Rle_lt_dec s 0) as [H0 | H0].
  { exists (max_volume d l). unfold calculate_volume.
    destruct (Rge_dec s d) as [? | _]; [lra |].
    destruct (Rle_dec s 0) as [_ | ?]; [reflexivity | lra]. }
  eexists. apply (calculate_volume_in_range s d l). lra.
Qed.

(** C3.  Segment symmetry and branch consistency: for [d > 0], [l > 0],
    the segments of depth [x] and [d - x] add up to the full tank for
    every [0 <= x <= d], and for every sensor distance [s] in [(0, d)]
    both branches of [calculate_volume] return the segment of the liquid
    depth [d - s]; none of the calls raises. *)
Theorem segment_symmetry_branch_consistency (d l : R) :
  0 < d -> 0 < l ->
  (forall x, 0 <= x <= d ->
     exists a b,
       segment_volume x d l = Ok a
       /\ segment_volume (d - x) d l = Ok b
       /\ a + b = max_volume d l)
  /\ (forall s, 0 < s < d ->
        exists v,
          calculate_volume s d l = Ok v
          /\ segment_volume (d - s) d l = Ok v).
Proof.
  intros Hd Hl. split.
  - intros x [Hx0 Hxd].
    destruct (Req_dec_T x 0) as [-> | Hn0].
    { exists 0, (max_volume d l). split; [| split].
      - unfold segment_volume.
        destruct (Rle_dec 0 0) as [_ | ?]; [reflexivity | lra].
      - unfold segment_volume.
        destruct (Rle_dec (d - 0) 0) as [? | _]; [lra |].
        destruct (Rge_dec (d - 0) d) as [_ | ?]; [reflexivity | lra].
      - ring. }
    destruct (Req_dec_T x d) as [-> | Hnd].
    { exists (max_volume d l), 0. split; [| split].
      - unfold segment_volume.
        destruct (Rle_dec d 0) as [? | _]; [lra |].
        destruct (Rge_dec d d) as [_ | ?]; [reflexivity | lra].
      - unfold segment_volume.
        destruct (Rle_dec (d - d) 0) as [_ | ?]; [reflexivity | lra].
      - ring. }
    pose proof (segment_volume_in_range x d l ltac:(lra)) as Ha.
    pose proof (segment_volume_in_range (d - x) d l ltac:(lra)) as Hb.
    cbv zeta in Ha, Hb.
    eexists. eexists. split; [exact Ha |]. split; [exact Hb |].
    set (t := acos ((d / 2 - x) / (d / 2))).
    assert (Ht : acos ((d / 2 - (d - x)) / (d / 2)) = PI - t).
    { unfold t. rewrite <- acos_opp. f_equal. field. lra. }
    rewrite Ht, max_volume_eq.
    replace (sin (PI - t)) with (sin t) by (symmetry; apply sin_PI_x).
    replace (cos (PI - t)) with (- cos t)
      by (rewrite cos_minus, cos_PI, sin_PI; ring).
    unfold Rdiv. ring.
  - intros s Hs.
    destruct (calculate_volume_in_range s d l Hs) as [Hc Hv].
    eexists. split; [exact Hc | exact Hv].
Qed.

Lemma segment_symmetry_branch_consistency_witness :
  0 < 100 /\ 0 < 200
  /\ (exists a b,
        segment_volume 25 100 200 = Ok a
        /\ segment_volume (100 - 25) 100 200 = Ok b
        /\ a + b = max_volume 100 200)
  /\ (exists v,
        calculate_volume 30 100 200 = Ok v
        /\ segment_volume (100 - 30) 100 200 = Ok v).
Proof.
  assert (Hd : 0 < 100) by lra.
  assert (Hl : 0 < 200) by lra.
  assert (Hx : 0 <= 25 <= 100) by lra.
  assert (Hs : 0 < 30 < 100) by lra.
  split; [exact Hd |]. split; [exact Hl |]. split.
  - exact (proj1 (segment_symmetry_branch_consistency 100 200 Hd Hl) 25 Hx).
  - exact (proj2 (segment_symmetry_branch_consistency 100 200 Hd Hl) 30 Hs).
Defined.

(** C4.  Boundary clamping: for [d > 0], [l > 0], a sensor distance of [0]
    gives the full tank and one of [d] gives [0]; every distance [<= 0]
    gives the full tank and every distance [>= d] gives [0]; and no
    sensor distance at all makes [calculate_volume] raise. *)
Theorem calculate_volume_clamps (d l : R) :
  0 < d -> 0 < l ->
  calculate_volume 0 d l = Ok (max_volume d l)
  /\ calculate_volume d d l = Ok 0
  /\ (forall s, s <= 0 -> calculate_volume s d l = Ok (max_volume d l))
  /\ (forall s, d <= s -> calculate_volume s d l = Ok 0)
  /\ (forall s, exists v, calculate_volume s d l = Ok v).
Proof.
  intros Hd Hl.
  assert (Hfull : forall s, s <= 0 ->
                    calculate_volume s d l = Ok (max_volume d l)).
  { intros s Hs. unfold calculate_volume.
    destruct (Rge_dec s d) as [? | _]; [lra |].
    destruct (Rle_dec s 0) as [_ | ?]; [reflexivity | lra]. }
  assert (Hempty : forall s, d <= s -> calculate_volume s d l = Ok 0).
  { intros s Hs. unfold calculate_volume.
    destruct (Rge_dec s d) as [_ | ?]; [reflexivity | lra]. }
  split; [apply Hfull; lra |].
  split; [apply Hempty; lra |].
  split; [exact Hfull |].
  split; [exact Hempty |].
  intros s. apply calculate_volume_total.
Qed.

Lemma calculate_volume_clamps_witness :
  0 < 100 /\ 0 < 200
  /\ calculate_volume 0 100 200 = Ok (max_volume 100 200)
  /\ calculate_volume 100 100 200 = Ok 0
  /\ calculate_volume (-5) 100 200 = Ok (max_volume 100 200)
  /\ calculate_volume 110 100 200 = Ok 0.
Proof.
  assert (Hd : 0 < 100) by lra.
  assert (Hl : 0 < 200) by lra.
  destruct (calculate_volume_clamps 100 200 Hd Hl)
    as (H0 & H100 & Hneg & Hover & _).
  split; [exact Hd |]. split; [exact Hl |].
  split; [exact H0 |]. split; [exact H100 |].
  split; [apply Hneg; lra | apply Hover; lra].
Defined.

(** C5, in exact real arithmetic.  Strict monotonicity: for [d > 0],
    [l > 0] and sensor distances [0 < s1 < s2 < d], [calculate_volume]
    returns at [s2] strictly less than at [s1].  On binary64 numbers the
    computed volume can stay equal or rise between two distances (section
    Binary64 below). *)
Theorem calculate_volume_strictly_decreasing (d l s1 s2 : R) :
  0 < d -> 0 < l -> 0 < s1 -> s1 < s2 -> s2 < d ->
  exists v1 v2,
    calculate_volume s1 d l = Ok v1
    /\ calculate_volume s2 d l = Ok v2
    /\ v2 < v1.
Proof.
  intros Hd Hl H1 H12 H2.
  destruct (calculate_volume_in_range s1 d l ltac:(lra)) as [E1 _].
  destruct (calculate_volume_in_range s2 d l ltac:(lra)) as [E2 _].
  cbv zeta in E1, E2.
  eexists. eexists. split; [exact E1 |]. split; [exact E2 |].
  set (r := d / 2) in *.
  assert (Hr : 0 < r) by (unfold r; lra).
  set (u1 := (r - (d - s1)) / r).
  set (u2 := (r - (d - s2)) / r).
  assert (Hu1 : -1 <= u1).
  { apply Rmult_le_reg_r with r; [exact Hr |].
    unfold u1, Rdiv. rewrite Rmult_assoc, Rinv_l by lra. unfold r. lra. }
  assert (Hu2 : u2 <= 1).
  { apply Rmult_le_reg_r with r; [exact Hr |].
    unfold u2, Rdiv. rewrite Rmult_assoc, Rinv_l by lra. unfold r. lra. }
  assert (Hu : u1 < u2).
  { apply Rmult_lt_reg_r with r; [exact Hr |].
    unfold u1, u2, Rdiv. rewrite !Rmult_assoc, Rinv_l by lra. lra. }
  pose proof (acos_strictly_decreasing u1 u2 Hu1 Hu Hu2) as Hacos.
  pose proof (acos_bound u1) as [_ B1].
  pose proof (acos_bound u2) as [B2 _].
  pose proof (sector_minus_triangle_increasing _ _ B2 Hacos B1) as Hinc.
  assert (Hk : 0 < r ^ 2 * l / 1000).
  { assert (0 < r ^ 2) by (apply pow_lt; exact Hr).
    assert (0 < r ^ 2 * l) by (apply Rmult_lt_0_compat; assumption).
    lra. }
  replace (r ^ 2 * (acos u2 - sin (acos u2) * cos (acos u2)) * l / 1000)
    with (r ^ 2 * l / 1000 * (acos u2 - sin (acos u2) * cos (acos u2)))
    by (unfold Rdiv; ring).
  replace (r ^ 2 * (acos u1 - sin (acos u1) * cos (acos u1)) * l / 1000)
    with (r ^ 2 * l / 1000 * (acos u1 - sin (acos u1) * cos (acos u1)))
    by (unfold Rdiv; ring).
  apply Rmult_lt_compat_l; assumption.
Qed.

Lemma calculate_volume_strictly_decreasing_witness :
  0 < 100 /\ 0 < 200 /\ 0 < 20 /\ 20 < 70 /\ 70 < 100
  /\ exists v1 v2,
       calculate_volume 20 100 200 = Ok v1
       /\ calculate_volume 70 100 200 = Ok v2
       /\ v2 < v1.
Proof.
  assert (Hd : 0 < 100) by lra.
  assert (Hl : 0 < 200) by lra.
  assert (H1 : 0 < 20) by lra.
  assert (H12 : 20 < 70) by lra.
  assert (H2 : 70 < 100) by lra.
  repeat (split; [assumption |]).
  exact (calculate_volume_strictly_decreasing 100 200 20 70 Hd Hl H1 H12 H2).
Defined.

End Geometry.

(** ** Rounding *)

Section Rounding.

Lemma round_half_even_near (y : R) (n : Z) :
  IZR n <= y < IZR n + 1 / 2 -> round_half_even y = n.
Proof.
  intros [Hlo Hhi].
  assert (Hf : Zfloor y = n) by (apply Zfloor_eq; lra).
  unfold round_half_even. rewrite Hf.
  destruct (Rlt_dec (y - IZR n) (1 / 2)) as [_ | ?]; [reflexivity | lra].
Qed.

Lemma round_half_even_bounds (y : R) :
  y - 1 / 2 <= IZR (round_half_even y) <= y + 1 / 2.
Proof.
  pose proof (Zfloor_bound y) as [Hlo Hhi].
  unfold round_half_even.
  destruct (Rlt_dec (y - IZR (Zfloor y)) (1 / 2)) as [? | ?]; [lra |].
  destruct (Rlt_dec (1 / 2) (y - IZR (Zfloor y))) as [? | ?].
  - rewrite plus_IZR. lra.
  - destruct (Z.even (Zfloor y)); [| rewrite plus_IZR]; lra.
Qed.

Lemma round_0 (ndigits : nat) : round 0 ndigits = 0.
Proof.
  unfold round. rewrite Rmult_0_l.
  rewrite (round_half_even_near 0 0) by lra.
  unfold Rdiv. apply Rmult_0_l.
Qed.

(** One decimal: the rounded value is within [0.05] of the argument. *)
Lemma round_1_bounds (x : R) : x - 1 / 20 <= round x 1 <= x + 1 / 20.
Proof.
  unfold round.
  replace (10 ^ 1) with 10 by (simpl; lra).
  pose proof (round_half_even_bounds (x * 10)). lra.
Qed.

End Rounding.

(** ** Rounding: order *)

Section RoundingOrder.

Lemma round_half_even_floor (y : R) :
  (Zfloor y <= round_half_even y <= Zfloor y + 1)%Z.
Proof.
  unfold round_half_even.
  destruct (Rlt_dec (y - IZR (Zfloor y)) (1 / 2)); [lia |].
  destruct (Rlt_dec (1 / 2) (y - IZR (Zfloor y))); [lia |].
  destruct (Z.even (Zfloor y)); lia.
Qed.

Lemma round_half_even_IZR (n : Z) : round_half_even (IZR n) = n.
Proof. apply round_half_even_near. lra. Qed.

Lemma round_half_even_le (y1 y2 : R) :
  y1 <= y2 -> (round_half_even y1 <= round_half_even y2)%Z.
Proof.
  intros Hle.
  pose proof (Zfloor_le y1 y2 Hle) as Hfloor.
  destruct (Z.eq_dec (Zfloor y1) (Zfloor y2)) as [Heq | Hne].
  - unfold round_half_even. rewrite Heq.
    destruct (Rlt_dec (y1 - IZR (Zfloor y2)) (1 / 2)) as [L1 | L1];
      destruct (Rlt_dec (y2 - IZR (Zfloor y2)) (1 / 2)) as [L2 | L2];
      try lia; try lra.
    + destruct (Rlt_dec (1 / 2) (y2 - IZR (Zfloor y2))); [lia |].
      destruct (Z.even (Zfloor y2)); lia.
    + destruct (Rlt_dec (1 / 2) (y1 - IZR (Zfloor y2))) as [G1 | G1];
        destruct (Rlt_dec (1 / 2) (y2 - IZR (Zfloor y2))) as [G2 | G2];
        try lia; try lra.
      destruct (Z.even (Zfloor y2)); lia.
  - pose proof (round_half_even_floor y1).
    pose proof (round_half_even_floor y2).
    lia.
Qed.

Lemma pow_10_pos (n : nat) : 0 < 10 ^ n.
Proof. apply pow_lt. lra. Qed.

(** [round] keeps the order. *)
Lemma round_le (x1 x2 : R) (ndigits : nat) :
  x1 <= x2 -> round x1 ndigits <= round x2 ndigits.
Proof.
  intros Hle. unfold round.
  pose proof (pow_10_pos ndigits) as Hpos.
  apply Rmult_le_compat_r; [left; apply Rinv_0_lt_compat; exact Hpos |].
  apply IZR_le, round_half_even_le.
  apply Rmult_le_compat_r; lra.
Qed.

(** [round] keeps the integers. *)
Lemma round_IZR (k : Z) (ndigits : nat) : round (IZR k) ndigits = IZR k.
Proof.
  unfold round.
  pose proof (pow_10_pos ndigits) as Hpos.
  rewrite pow_IZR, <- mult_IZR, round_half_even_IZR, mult_IZR.
  rewrite <- pow_IZR. field. lra.
Qed.

Lemma round_nonneg (x : R) (ndigits : nat) : 0 <= x -> 0 <= round x ndigits.
Proof.
  intros Hx. rewrite <- (round_0 ndigits). apply round_le. exact Hx.
Qed.

End RoundingOrder.

(** ** The usage accumulator *)

Section Accumulator.

Import TankDailyUsageSensor.

Lemma update_usage_fields (v : R) (self : t) (h : hass) :
  let self' := fst (update_usage v self h) in
  _daily_usage self'
  = match _last_volume self with
    | Some last_volume =>
        if Rlt_dec v last_volume
        then _daily_usage self + (last_volume - v)
        else _daily_usage self
    | None => _daily_usage self
    end
  /\ _last_volume self' = Some v.
Proof.
  unfold update_usage. cbn.
  destruct (_cost_sensor self); cbn; split; reflexivity.
Qed.

Lemma update_usage_nondecreasing (v : R) (self : t) (h : hass) :
  _daily_usage self <= _daily_usage (fst (update_usage v self h)).
Proof.
  destruct (update_usage_fields v self h) as [E _]. rewrite E.
  destruct (_last_volume self) as [lv |]; [| lra].
  destruct (Rlt_dec v lv); lra.
Qed.

Lemma feed_cons (v : R) (vs : list R) (self : t) (h : hass) :
  feed (v :: vs) self h
  = feed vs (fst (update_usage v self h)) (snd (update_usage v self h)).
Proof.
  cbn [feed]. destruct (update_usage v self h). reflexivity.
Qed.

Lemma feed_nondecreasing (vs : list R) (self : t) (h : hass) :
  _daily_usage self <= _daily_usage (fst (feed vs self h)).
Proof.
  revert self h.
  induction vs as [| v vs IH]; intros self h.
  - cbn. lra.
  - rewrite feed_cons.
    apply Rle_trans with (_daily_usage (fst (update_usage v self h))).
    + apply update_usage_nondecreasing.
    + apply IH.
Qed.

Lemma midnight_reset_fields (now clock : datetime.t) (self : t) (h : hass) :
  let self' := fst (_async_midnight_reset now clock self h) in
  _daily_usage self' = 0
  /\ _last_volume self' = None
  /\ _attr_last_reset self' = Some (datetime.replace clock 0 0 0 0)
  /\ _attr_native_value self' = Some 0.
Proof.
  unfold _async_midnight_reset. cbn.
  destruct (_cost_sensor self); cbn; repeat split; reflexivity.
Qed.

(** The last element of a non-empty list does not depend on the default. *)
Lemma last_cons_default (v : R) (vs : list R) (default : R) :
  last (v :: vs) default = last vs v.
Proof.
  revert v default.
  induction vs as [| w ws IH]; intros v default; [reflexivity |].
  change (last (v :: w :: ws) default) with (last (w :: ws) default).
  rewrite (IH w default), (IH w v). reflexivity.
Qed.

(** C1, in exact real arithmetic.  Telescoping: from a baseline [v0],
    feeding a strictly decreasing sequence [v0 > v1 > ... > vN] adds
    exactly [v0 - vN] to the daily usage, the same total as feeding [vN]
    alone in one step.  On binary64 numbers every drop and every sum is
    rounded and the two totals can differ (section Binary64 below). *)
Theorem usage_telescopes (self : t) (h : hass) (v0 : R) (volumes : list R) :
  _last_volume self = Some v0 ->
  decreasing_from v0 volumes ->
  _daily_usage (fst (feed volumes self h))
  = _daily_usage self + (v0 - last volumes v0)
  /\ _daily_usage (fst (feed volumes self h))
     = _daily_usage (fst (feed [last volumes v0] self h)).
Proof.
  intros Hbase Hdec.
  assert (Htotal : _daily_usage (fst (feed volumes self h))
                   = _daily_usage self + (v0 - last volumes v0)).
  { revert self h v0 Hbase Hdec.
    induction volumes as [| v vs IH]; intros self h v0 Hbase Hdec.
    - cbn. lra.
    - destruct Hdec as [Hlt Hdec].
      rewrite feed_cons.
      destruct (update_usage_fields v self h) as [Eu El].
      rewrite Hbase in Eu.
      destruct (Rlt_dec v v0) as [_ | ?]; [| lra].
      rewrite (IH _ _ v El Hdec), Eu.
      rewrite last_cons_default. lra. }
  split; [exact Htotal |].
  rewrite Htotal, feed_cons. cbn [feed fst].
  destruct (update_usage_fields (last volumes v0) self h) as [Eu _].
  rewrite Eu, Hbase.
  destruct (Rlt_dec (last volumes v0) v0) as [_ | Hn]; [reflexivity |].
  (* the last volume is not below the baseline only for the empty sequence *)
  destruct volumes as [| v vs]; [cbn; lra |].
  exfalso. apply Hn. clear - Hdec.
  revert v v0 Hdec. induction vs as [| w ws IHw]; intros v v0 [Hlt Hdec].
  - exact Hlt.
  - rewrite last_cons_default.
    apply Rlt_trans with v; [| exact Hlt].
    apply IHw. exact Hdec.
Qed.

Lemma usage_telescopes_witness :
  let self := fst (update_usage 500 (__init__ sample_entry) []) in
  _last_volume self = Some 500
  /\ decreasing_from 500 [490; 480; 475]
  /\ _daily_usage (fst (feed [490; 480; 475] self []))
     = _daily_usage self + (500 - last [490; 480; 475] 500)
  /\ _daily_usage (fst (feed [490; 480; 475] self []))
     = _daily_usage (fst (feed [last [490; 480; 475] 500] self [])).
Proof.
  intros self.
  assert (Hbase : _last_volume self = Some 500) by reflexivity.
  assert (Hdec : decreasing_from 500 [490; 480; 475])
    by (cbn; repeat split; lra).
  split; [exact Hbase |]. split; [exact Hdec |].
  exact (usage_telescopes self [] 500 [490; 480; 475] Hbase Hdec).
Defined.

(** C6.  Baseline and refill frame: [update_usage v] leaves the daily usage
    as it was when there is no last volume (so also right after
    construction and right after a midnight reset) and when [v] is not
    below the last volume; it always records [v] as the last volume, and
    the next lower sample is counted from [v]. *)
Theorem update_usage_baseline_and_refill (self : t) (v : R) (h : hass) :
  let self' := fst (update_usage v self h) in
  (_last_volume self = None -> _daily_usage self' = _daily_usage self)
  /\ (forall last_volume,
        _last_volume self = Some last_volume -> last_volume <= v ->
        _daily_usage self' = _daily_usage self)
  /\ _last_volume self' = Some v
  /\ (forall v' h', v' < v ->
        _daily_usage (fst (update_usage v' self' h'))
        = _daily_usage self' + (v - v'))
  /\ (forall entry,
        _daily_usage (fst (update_usage v (__init__ entry) h))
        = _daily_usage (__init__ entry))
  /\ (forall now clock h0,
        _daily_usage
          (fst (update_usage v
                  (fst (_async_midnight_reset now clock self h0)) h))
        = 0).
Proof.
  intros self'.
  destruct (update_usage_fields v self h) as [Eu El].
  fold self' in Eu, El.
  split; [| split; [| split; [| split; [| split]]]].
  - intros Hnone. rewrite Eu, Hnone. reflexivity.
  - intros lv Hsome Hle. rewrite Eu, Hsome.
    destruct (Rlt_dec v lv) as [? | _]; [lra | reflexivity].
  - exact El.
  - intros v' h' Hlt.
    destruct (update_usage_fields v' self' h') as [Eu' _].
    rewrite Eu', El.
    destruct (Rlt_dec v' v) as [_ | ?]; [reflexivity | lra].
  - intros entry.
    destruct (update_usage_fields v (__init__ entry) h) as [E _].
    rewrite E. reflexivity.
  - intros now clock h0.
    destruct (midnight_reset_fields now clock self h0) as (Ed & Ev & _).
    destruct (update_usage_fields v
                (fst (_async_midnight_reset now clock self h0)) h) as [E _].
    rewrite E, Ev, Ed. reflexivity.
Qed.

Lemma update_usage_baseline_and_refill_witness :
  let fresh := __init__ sample_entry in
  let self := fst (update_usage 490 fresh []) in
  (_last_volume fresh = None
   /\ _daily_usage (fst (update_usage 490 fresh [])) = _daily_usage fresh)
  /\ (_last_volume self = Some 490 /\ 490 <= 800
      /\ _daily_usage (fst (update_usage 800 self [])) = _daily_usage self)
  /\ (780 < 800
      /\ _daily_usage
           (fst (update_usage 780 (fst (update_usage 800 self [])) []))
         = _daily_usage (fst (update_usage 800 self [])) + (800 - 780)).
Proof.
  intros fresh self.
  assert (Hnone : _last_volume fresh = None) by reflexivity.
  assert (Hsome : _last_volume self = Some 490) by reflexivity.
  assert (Hle : 490 <= 800) by lra.
  assert (Hlt : 780 < 800) by lra.
  split; [| split].
  - split; [exact Hnone |].
    exact (proj1 (update_usage_baseline_and_refill fresh 490 []) Hnone).
  - split; [exact Hsome |]. split; [exact Hle |].
    exact (proj1 (proj2 (update_usage_baseline_and_refill self 800 []))
             490 Hsome Hle).
  - split; [exact Hlt |].
    exact (proj1 (proj2 (proj2 (proj2
             (update_usage_baseline_and_refill self 800 []))))
             780 [] Hlt).
Defined.

(** C7.  Midnight reset: whatever the state and the time, the reset leaves
    a daily usage of [0], no last volume, the start of the clock's day as
    the time of the last reset and [0] as the native value, which it
    writes; the wired cost sensor is updated with [0], so its native value
    becomes [0] and is written too. *)
Theorem midnight_reset_postcondition (self : t) (now clock : datetime.t)
  (h : hass) :
  let self' := fst (_async_midnight_reset now clock self h) in
  let h' := snd (_async_midnight_reset now clock self h) in
  _daily_usage self' = 0
  /\ _last_volume self' = None
  /\ _attr_last_reset self' = Some (datetime.replace clock 0 0 0 0)
  /\ _attr_native_value self' = Some 0
  /\ match _cost_sensor self with
     | Some cost_sensor =>
         _cost_sensor self'
         = Some (fst (TankDailyCostSensor.update_cost 0 cost_sensor
                        ((_attr_unique_id self, Some 0) :: h)))
         /\ (exists cost_sensor',
               _cost_sensor self' = Some cost_sensor'
               /\ TankDailyCostSensor._attr_native_value cost_sensor'
                  = Some 0)
         /\ h' = (TankDailyCostSensor._attr_unique_id cost_sensor, Some 0)
                 :: (_attr_unique_id self, Some 0) :: h
     | None =>
         _cost_sensor self' = None
         /\ h' = (_attr_unique_id self, Some 0) :: h
     end.
Proof.
  intros self' h'.
  destruct (midnight_reset_fields now clock self h) as (Ed & Ev & Er & En).
  fold self' in Ed, Ev, Er, En.
  split; [exact Ed |]. split; [exact Ev |]. split; [exact Er |].
  split; [exact En |].
  subst self' h'. unfold _async_midnight_reset. cbn.
  destruct (_cost_sensor self) as [cost_sensor |]; cbn.
  - assert (Hz : round (0 * TankDailyCostSensor._price_per_litre cost_sensor) 2
                 = 0) by (rewrite Rmult_0_l; apply round_0).
    split; [reflexivity |]. split.
    + eexists. split; [reflexivity |]. cbn. rewrite Hz. reflexivity.
    + rewrite Hz. reflexivity.
  - split; reflexivity.
Qed.

End Accumulator.

(** ** Restoring at start-up *)

Section Recovery.

Import TankDailyUsageSensor.

(** The branch taken when the stored time stamp parses to an earlier day. *)
Lemma added_after_missed_midnight `{PythonLib} (self : t) (restored : dict)
  (last_data : DailyUsageStoredData.t) (last_reset_dt now : datetime.t) :
  DailyUsageStoredData.from_dict restored = Some last_data ->
  DailyUsageStoredData.last_reset last_data <> ""%string ->
  fromisoformat (DailyUsageStoredData.last_reset last_data)
  = Some last_reset_dt ->
  date.ltb (datetime.date last_reset_dt) (datetime.date now) = true ->
  async_added_to_hass (Some restored) now self
  = {| _entry := _entry self;
       _attr_unique_id := _attr_unique_id self;
       _attr_native_value := Some 0;
       _attr_last_reset := Some (datetime.replace now 0 0 0 0);
       _daily_usage := 0;
       _last_volume := None;
       _cost_sensor := _cost_sensor self |}.
Proof.
  intros Hfrom Hne Hparse Hdate.
  unfold async_added_to_hass. rewrite Hfrom.
  apply String.eqb_neq in Hne. rewrite Hne, Hparse, Hdate.
  rewrite round_0. reflexivity.
Qed.

(** Whatever is restored, the daily usage afterwards is the one before, or
    the stored one, or [0]. *)
Lemma added_daily_usage_cases `{PythonLib} (self : t)
  (last_extra_data : option dict) (now : datetime.t) :
  let self' := async_added_to_hass last_extra_data now self in
  _daily_usage self' = _daily_usage self
  \/ _daily_usage self' = 0
  \/ exists restored last_data,
       last_extra_data = Some restored
       /\ DailyUsageStoredData.from_dict restored = Some last_data
       /\ _daily_usage self' = DailyUsageStoredData.daily_usage last_data.
Proof.
  unfold async_added_to_hass.
  destruct last_extra_data as [restored |]; [| left; reflexivity].
  destruct (DailyUsageStoredData.from_dict restored) as [last_data |] eqn:Hfrom;
    [| left; reflexivity].
  destruct (String.eqb (DailyUsageStoredData.last_reset last_data) "").
  { right. right. exists restored, last_data. auto. }
  destruct (fromisoformat (DailyUsageStoredData.last_reset last_data))
    as [last_reset_dt |].
  - destruct (date.ltb (datetime.date last_reset_dt) (datetime.date now)).
    + right. left. reflexivity.
    + right. right. exists restored, last_data. auto.
  - right. right. exists restored, last_data. auto.
Qed.

Lemma reachable_daily_usage_nonneg `{PythonLib} (self : t) :
  reachable self -> 0 <= _daily_usage self.
Proof.
  induction 1 as [entry | self c _ IH | self now _ IH
                 | self stored stored_at now _ IH _ IHstored
                 | self now clock h _ IH | self v h _ IH].
  - cbn. lra.
  - exact IH.
  - exact IH.
  - destruct (added_daily_usage_cases self
                (Some (DailyUsageStoredData.as_dict
                         (extra_restore_state_data stored_at stored))) now)
      as [E | [E | (restored & last_data & Hsome & Hfrom & E)]].
    + rewrite E. exact IH.
    + rewrite E. lra.
    + rewrite E. injection Hsome as <-.
      cbn in Hfrom. injection Hfrom as <-. cbn. exact IHstored.
  - destruct (midnight_reset_fields now clock self h) as [E _].
    rewrite E. lra.
  - apply Rle_trans with (_daily_usage self); [exact IH |].
    apply update_usage_nondecreasing.
Qed.

(** C8.  Invariant: the daily usage of every reachable state is [>= 0]; no
    [update_usage], and so no sequence of samples, decreases it; the
    midnight reset and the recovery from a missed midnight put it back
    to [0]. *)
Theorem daily_usage_nonneg_nondecreasing `{PythonLib} :
  (forall self, reachable self -> 0 <= _daily_usage self)
  /\ (forall self v h,
        _daily_usage self <= _daily_usage (fst (update_usage v self h)))
  /\ (forall self volumes h,
        _daily_usage self <= _daily_usage (fst (feed volumes self h)))
  /\ (forall self now clock h,
        _daily_usage (fst (_async_midnight_reset now clock self h)) = 0)
  /\ (forall self restored last_data last_reset_dt now,
        DailyUsageStoredData.from_dict restored = Some last_data ->
        DailyUsageStoredData.last_reset last_data <> ""%string ->
        fromisoformat (DailyUsageStoredData.last_reset last_data)
        = Some last_reset_dt ->
        date.ltb (datetime.date last_reset_dt) (datetime.date now) = true ->
        _daily_usage (async_added_to_hass (Some restored) now self) = 0).
Proof.
  split; [exact reachable_daily_usage_nonneg |].
  split; [intros; apply update_usage_nondecreasing |].
  split; [intros; apply feed_nondecreasing |].
  split.
  - intros self now clock h.
    destruct (midnight_reset_fields now clock self h) as [E _]. exact E.
  - intros self restored last_data last_reset_dt now Hfrom Hne Hparse Hdate.
    rewrite (added_after_missed_midnight self restored last_data
               last_reset_dt now Hfrom Hne Hparse Hdate).
    reflexivity.
Qed.

Lemma daily_usage_nonneg_nondecreasing_witness :
  let self :=
    fst (update_usage 490 (fst (update_usage 500 (__init__ sample_entry) []))
           []) in
  let last_data :=
    DailyUsageStoredData.__init__
      {| SensorExtraStoredData.native_value := Some (25 / 2);
         SensorExtraStoredData.native_unit_of_measurement := Some "L"%string |}
      (25 / 2) (Some 450) "2025-01-14T23:50:00" in
  (@reachable sample_lib self /\ 0 <= _daily_usage self)
  /\ (DailyUsageStoredData.from_dict sample_snapshot = Some last_data
      /\ DailyUsageStoredData.last_reset last_data <> ""%string
      /\ @fromisoformat sample_lib (DailyUsageStoredData.last_reset last_data)
         = Some sample_stored_at
      /\ date.ltb (datetime.date sample_stored_at) (datetime.date sample_now)
         = true
      /\ _daily_usage
           (@async_added_to_hass sample_lib (Some sample_snapshot) sample_now
              self)
         = 0).
Proof.
  intros self last_data.
  assert (Hreach : @reachable sample_lib self)
    by (unfold self; do 2 apply reachable_update_usage; apply reachable_init).
  assert (Hfrom : DailyUsageStoredData.from_dict sample_snapshot
                  = Some last_data) by reflexivity.
  assert (Hne : DailyUsageStoredData.last_reset last_data <> ""%string)
    by (cbn; discriminate).
  assert (Hparse : @fromisoformat sample_lib
                     (DailyUsageStoredData.last_reset last_data)
                   = Some sample_stored_at) by reflexivity.
  assert (Hdate : date.ltb (datetime.date sample_stored_at)
                    (datetime.date sample_now) = true) by reflexivity.
  split.
  - split; [exact Hreach |].
    exact (proj1 (@daily_usage_nonneg_nondecreasing sample_lib) self Hreach).
  - split; [exact Hfrom |]. split; [exact Hne |]. split; [exact Hparse |].
    split; [exact Hdate |].
    exact (proj2 (proj2 (proj2 (proj2
             (@daily_usage_nonneg_nondecreasing sample_lib))))
             self sample_snapshot last_data sample_stored_at sample_now
             Hfrom Hne Hparse Hdate).
Defined.

(** C2, as the code has it.  When the stored time stamp is not empty, parses
    and lies on a day before the current one, the restored sensor has the
    fields the midnight reset at the same clock value would leave: daily
    usage [0], no last volume, last reset at the start of the current day,
    native value [0].  The restoring itself reaches no cost sensor: the
    wired cost sensor stays as it was, so the whole sensor equals the reset
    one exactly when the cost sensor already shows [0], as it does from its
    constructor; and the two states that the reset writes are not written
    by the restoring. *)
Theorem recovery_after_missed_midnight `{PythonLib} (self : t) (h : hass)
  (restored : dict) (last_data : DailyUsageStoredData.t)
  (last_reset_dt now : datetime.t) :
  DailyUsageStoredData.from_dict restored = Some last_data ->
  DailyUsageStoredData.last_reset last_data <> ""%string ->
  fromisoformat (DailyUsageStoredData.last_reset last_data)
  = Some last_reset_dt ->
  date.ltb (datetime.date last_reset_dt) (datetime.date now) = true ->
  let recovered := async_added_to_hass (Some restored) now self in
  let reset := fst (_async_midnight_reset now now self h) in
  (_daily_usage recovered = 0
   /\ _last_volume recovered = None
   /\ _attr_last_reset recovered = Some (datetime.replace now 0 0 0 0)
   /\ _attr_native_value recovered = Some 0)
  /\ (_daily_usage recovered = _daily_usage reset
      /\ _last_volume recovered = _last_volume reset
      /\ _attr_last_reset recovered = _attr_last_reset reset
      /\ _attr_native_value recovered = _attr_native_value reset)
  /\ _cost_sensor recovered = _cost_sensor self
  /\ (forall cost_sensor,
        _cost_sensor self = Some cost_sensor ->
        TankDailyCostSensor._attr_native_value cost_sensor = Some 0 ->
        recovered = reset)
  /\ (_cost_sensor self = None -> recovered = reset).
Proof.
  intros Hfrom Hne Hparse Hdate recovered reset.
  assert (Hrec := added_after_missed_midnight self restored last_data
                    last_reset_dt now Hfrom Hne Hparse Hdate).
  fold recovered in Hrec.
  destruct (midnight_reset_fields now now self h) as (Ed & Ev & Er & En).
  fold reset in Ed, Ev, Er, En.
  split; [rewrite Hrec; cbn; auto |].
  split; [rewrite Hrec, Ed, Ev, Er, En; cbn; auto |].
  split; [rewrite Hrec; reflexivity |].
  split.
  - intros [e u p nv] Hcost Hzero. cbn in Hzero. subst nv.
    rewrite Hrec. unfold reset, _async_midnight_reset. cbn.
    rewrite Hcost. cbn. rewrite Rmult_0_l, round_0. reflexivity.
  - intros Hnone.
    rewrite Hrec. unfold reset, _async_midnight_reset. cbn.
    rewrite Hnone. reflexivity.
Qed.

Lemma recovery_after_missed_midnight_witness :
  let self := daily_usage_sensor (setup_entities sample_entry) in
  let last_data :=
    DailyUsageStoredData.__init__
      {| SensorExtraStoredData.native_value := Some (25 / 2);
         SensorExtraStoredData.native_unit_of_measurement := Some "L"%string |}
      (25 / 2) (Some 450) "2025-01-14T23:50:00" in
  let recovered :=
    @async_added_to_hass sample_lib (Some sample_snapshot) sample_now self in
  DailyUsageStoredData.from_dict sample_snapshot = Some last_data
  /\ DailyUsageStoredData.last_reset last_data <> ""%string
  /\ @fromisoformat sample_lib (DailyUsageStoredData.last_reset last_data)
     = Some sample_stored_at
  /\ date.ltb (datetime.date sample_stored_at) (datetime.date sample_now)
     = true
  /\ _daily_usage recovered = 0
  /\ _last_volume recovered = None
  /\ _attr_last_reset recovered = Some (datetime.replace sample_now 0 0 0 0)
  /\ _attr_native_value recovered = Some 0.
Proof.
  intros self last_data recovered.
  assert (Hfrom : DailyUsageStoredData.from_dict sample_snapshot
                  = Some last_data) by reflexivity.
  assert (Hne : DailyUsageStoredData.last_reset last_data <> ""%string)
    by (cbn; discriminate).
  assert (Hparse : @fromisoformat sample_lib
                     (DailyUsageStoredData.last_reset last_data)
                   = Some sample_stored_at) by reflexivity.
  assert (Hdate : date.ltb (datetime.date sample_stored_at)
                    (datetime.date sample_now) = true) by reflexivity.
  split; [exact Hfrom |]. split; [exact Hne |]. split; [exact Hparse |].
  split; [exact Hdate |].
  exact (proj1 (@recovery_after_missed_midnight sample_lib self []
                  sample_snapshot last_data sample_stored_at sample_now
                  Hfrom Hne Hparse Hdate)).
Defined.

(** C2 as stated fails: the snapshot of 14 January restored on 15 January
    meets the condition, and the restored sensor equals the reset one, but
    the midnight reset writes the states of the usage and of the cost
    sensor and the restoring writes nothing, so state and notifications
    together differ. *)
Lemma recovery_differs_from_midnight_reset :
  let self := daily_usage_sensor (setup_entities sample_entry) in
  let recovered :=
    @async_added_to_hass sample_lib (Some sample_snapshot) sample_now self in
  (exists last_data last_reset_dt,
     DailyUsageStoredData.from_dict sample_snapshot = Some last_data
     /\ @fromisoformat sample_lib (DailyUsageStoredData.last_reset last_data)
        = Some last_reset_dt
     /\ date.ltb (datetime.date last_reset_dt) (datetime.date sample_now)
        = true)
  /\ snd (_async_midnight_reset sample_now sample_now self [])
     = [("tank_daily_cost"%string, Some 0);
        ("tank_daily_usage"%string, Some 0)]
  /\ (recovered, @nil (string * option R))
     <> _async_midnight_reset sample_now sample_now self [].
Proof.
  intros self recovered.
  split.
  { eexists. exists sample_stored_at.
    split; [reflexivity |]. split; reflexivity. }
  assert (Hlog : snd (_async_midnight_reset sample_now sample_now self [])
                 = [("tank_daily_cost"%string, Some 0);
                    ("tank_daily_usage"%string, Some 0)]).
  { unfold _async_midnight_reset, TankDailyCostSensor.update_cost,
      async_write_ha_state.
    cbn. rewrite Rmult_0_l, round_0. reflexivity. }
  split; [exact Hlog |].
  intros Heq. rewrite <- Heq in Hlog. cbn [snd] in Hlog. discriminate Hlog.
Qed.

End Recovery.

(** ** The state-change handler *)

Section Handler.

Lemma update_percentage_ok (volume max_vol : R)
  (self : TankFillPercentageSensor.t) (h : hass) :
  exists value,
    TankFillPercentageSensor.update_percentage volume max_vol self h
    = Ok ({| TankFillPercentageSensor._entry :=
               TankFillPercentageSensor._entry self;
             TankFillPercentageSensor._attr_unique_id :=
               TankFillPercentageSensor._attr_unique_id self;
             TankFillPercentageSensor._diameter :=
               TankFillPercentageSensor._diameter self;
             TankFillPercentageSensor._length :=
               TankFillPercentageSensor._length self;
             TankFillPercentageSensor._attr_native_value := Some value |},
          (TankFillPercentageSensor._attr_unique_id self, Some value) :: h).
Proof.
  unfold TankFillPercentageSensor.update_percentage.
  destruct (Rgt_dec max_vol 0) as [Hpos | _].
  - unfold truediv.
    destruct (Req_dec_T max_vol 0) as [? | _]; [lra |].
    eexists. reflexivity.
  - eexists. reflexivity.
Qed.

(** An event that carries a number is processed: the depth, the volume and
    the percentage sensors are updated and write in turn, then the daily
    usage sensor is updated with the volume. *)
Lemma sensor_changed_processed `{PythonLib} (diameter length : R)
  (event : Event) (w : entities) (h : hass) (st : State) (depth : R) :
  new_state event = Some st ->
  is_unknown_or_unavailable (state st) = false ->
  float (state st) = Some depth ->
  exists volume percentage,
    let h3 :=
      (TankFillPercentageSensor._attr_unique_id (percentage_sensor w),
       Some percentage)
      :: (TankVolumeSensor._attr_unique_id (volume_sensor w),
          Some (round volume 1))
      :: (TankOilDepthSensor._attr_unique_id (oil_depth_sensor w),
          Some (round (max (diameter - depth) 0) 1))
      :: h in
    calc.calculate_volume depth diameter length = Ok volume
    /\ _async_sensor_changed diameter length event w h
       = Ok ({| oil_depth_sensor :=
                  fst (TankOilDepthSensor.update_depth (diameter - depth)
                         (oil_depth_sensor w) h);
                volume_sensor :=
                  fst (TankVolumeSensor.update_volume volume (volume_sensor w)
                         h);
                percentage_sensor :=
                  {| TankFillPercentageSensor._entry :=
                       TankFillPercentageSensor._entry (percentage_sensor w);
                     TankFillPercentageSensor._attr_unique_id :=
                       TankFillPercentageSensor._attr_unique_id
                         (percentage_sensor w);
                     TankFillPercentageSensor._diameter :=
                       TankFillPercentageSensor._diameter (percentage_sensor w);
                     TankFillPercentageSensor._length :=
                       TankFillPercentageSensor._length (percentage_sensor w);
                     TankFillPercentageSensor._attr_native_value :=
                       Some percentage |};
                daily_usage_sensor :=
                  fst (TankDailyUsageSensor.update_usage volume
                         (daily_usage_sensor w) h3) |},
             snd (TankDailyUsageSensor.update_usage volume
                    (daily_usage_sensor w) h3)).
Proof.
  intros Hstate Hknown Hfloat.
  destruct (calculate_volume_total depth diameter length) as [volume Hvol].
  unfold _async_sensor_changed.
  rewrite Hstate, Hknown, Hfloat, Hvol. cbn [bind].
  unfold TankOilDepthSensor.update_depth, TankVolumeSensor.update_volume,
    async_write_ha_state.
  cbn [TankOilDepthSensor._attr_unique_id TankOilDepthSensor._attr_native_value
       TankVolumeSensor._attr_unique_id TankVolumeSensor._attr_native_value
       fst snd].
  match goal with
  | |- context [TankFillPercentageSensor.update_percentage ?v ?m ?p ?h2] =>
      destruct (update_percentage_ok v m p h2) as [percentage Hpct];
      rewrite Hpct
  end.
  cbn [bind].
  exists volume, percentage. cbv zeta.
  split; [reflexivity |].
  match goal with
  | |- context [TankDailyUsageSensor.update_usage ?v ?u ?h3] =>
      destruct (TankDailyUsageSensor.update_usage v u h3)
  end.
  reflexivity.
Qed.

Lemma is_unknown_or_unavailable_true (s : string) :
  is_unknown_or_unavailable s = true
  <-> s = "unknown"%string \/ s = "unavailable"%string.
Proof.
  unfold is_unknown_or_unavailable.
  rewrite orb_true_iff, !String.eqb_eq. reflexivity.
Qed.

Lemma is_unknown_or_unavailable_false (s : string) :
  s <> "unknown"%string -> s <> "unavailable"%string ->
  is_unknown_or_unavailable s = false.
Proof.
  intros H1 H2.
  destruct (is_unknown_or_unavailable s) eqn:E; [| reflexivity].
  apply is_unknown_or_unavailable_true in E. tauto.
Qed.

Lemma update_usage_writes (v : R) (self : TankDailyUsageSensor.t) (h : hass) :
  (List.length h < List.length (snd (TankDailyUsageSensor.update_usage v self h)))%nat.
Proof.
  unfold TankDailyUsageSensor.update_usage, async_write_ha_state. cbn.
  destruct (TankDailyUsageSensor._cost_sensor self); cbn; lia.
Qed.

(** C9.  Malformed input: an event without a new state, with the state
    "unknown" or "unavailable", or with a state that [float] rejects leaves
    every sensor and the written states as they were; the handler raises
    for no event; an event whose state parses is processed, and a distance
    at or beyond the diameter is processed as a volume of [0]. *)
Theorem malformed_input_ignored `{PythonLib} (diameter length : R)
  (event : Event) (w : entities) (h : hass) :
  (new_state event = None
   \/ (exists st,
         new_state event = Some st
         /\ (state st = "unknown"%string
             \/ state st = "unavailable"%string
             \/ float (state st) = None)) ->
   _async_sensor_changed diameter length event w h = Ok (w, h))
  /\ (exists w' h',
        _async_sensor_changed diameter length event w h = Ok (w', h'))
  /\ (forall st depth,
        new_state event = Some st ->
        state st <> "unknown"%string ->
        state st <> "unavailable"%string ->
        float (state st) = Some depth ->
        exists volume w' h',
          calc.calculate_volume depth diameter length = Ok volume
          /\ _async_sensor_changed diameter length event w h = Ok (w', h')
          /\ TankVolumeSensor._attr_native_value (volume_sensor w')
             = Some (round volume 1)
          /\ TankDailyUsageSensor._last_volume (daily_usage_sensor w')
             = Some volume
          /\ (List.length h < List.length h')%nat
          /\ (diameter <= depth ->
              volume = 0
              /\ TankVolumeSensor._attr_native_value (volume_sensor w')
                 = Some 0)).
Proof.
  assert (Hprocessed :
    forall st depth,
      new_state event = Some st ->
      is_unknown_or_unavailable (state st) = false ->
      float (state st) = Some depth ->
      exists volume w' h',
        calc.calculate_volume depth diameter length = Ok volume
        /\ _async_sensor_changed diameter length event w h = Ok (w', h')
        /\ TankVolumeSensor._attr_native_value (volume_sensor w')
           = Some (round volume 1)
        /\ TankDailyUsageSensor._last_volume (daily_usage_sensor w')
           = Some volume
        /\ (List.length h < List.length h')%nat
        /\ (diameter <= depth ->
            volume = 0
            /\ TankVolumeSensor._attr_native_value (volume_sensor w')
               = Some 0)).
  { intros st depth Hstate Hknown Hfloat.
    destruct (sensor_changed_processed diameter length event w h st depth
                Hstate Hknown Hfloat) as (volume & percentage & Hvol & Hrun).
    cbv zeta in Hvol, Hrun.
    exists volume. eexists. eexists.
    split; [exact Hvol |]. split; [exact Hrun |].
    cbn [volume_sensor daily_usage_sensor].
    split; [reflexivity |].
    split; [apply update_usage_fields |].
    split.
    - eapply Nat.lt_trans; [| apply update_usage_writes]. cbn. lia.
    - intros Hover.
      assert (Hzero : volume = 0).
      { unfold calc.calculate_volume in Hvol.
        destruct (Rge_dec depth diameter) as [_ | ?]; [| lra].
        injection Hvol as <-. reflexivity. }
      split; [exact Hzero |].
      cbn. rewrite Hzero, round_0. reflexivity. }
  split; [| split].
  - intros [Hnone | (st & Hstate & Hbad)];
      unfold _async_sensor_changed.
    + rewrite Hnone. reflexivity.
    + rewrite Hstate.
      destruct (is_unknown_or_unavailable (state st)) eqn:Hknown;
        [reflexivity |].
      destruct Hbad as [Hbad | [Hbad | Hbad]].
      * rewrite Hbad in Hknown. discriminate.
      * rewrite Hbad in Hknown. discriminate.
      * rewrite Hbad. reflexivity.
  - destruct (new_state event) as [st |] eqn:Hstate.
    + destruct (is_unknown_or_unavailable (state st)) eqn:Hknown.
      * exists w, h. unfold _async_sensor_changed.
        rewrite Hstate, Hknown. reflexivity.
      * destruct (float (state st)) as [depth |] eqn:Hfloat.
        -- destruct (Hprocessed st depth eq_refl Hknown Hfloat)
             as (volume & w' & h' & _ & Hrun & _).
           exists w', h'. exact Hrun.
        -- exists w, h. unfold _async_sensor_changed.
           rewrite Hstate, Hknown, Hfloat. reflexivity.
    + exists w, h. unfold _async_sensor_changed.
      rewrite Hstate. reflexivity.
  - intros st depth Hstate Hn1 Hn2 Hfloat.
    apply (Hprocessed st depth Hstate); [| exact Hfloat].
    apply is_unknown_or_unavailable_false; assumption.
Qed.

Lemma malformed_input_ignored_witness :
  let diameter := data_tank_diameter sample_entry in
  let length := data_tank_length sample_entry in
  let w := setup_entities sample_entry in
  let unavailable := {| new_state := Some {| state := "unavailable" |} |} in
  let beyond := {| new_state := Some {| state := "120" |} |} in
  (new_state unavailable = Some {| state := "unavailable" |}
   /\ @_async_sensor_changed sample_lib diameter length unavailable w []
      = Ok (w, []))
  /\ (new_state beyond = Some {| state := "120" |}
      /\ @float sample_lib "120" = Some 120
      /\ diameter <= 120
      /\ exists volume w' h',
           calc.calculate_volume 120 diameter length = Ok volume
           /\ @_async_sensor_changed sample_lib diameter length beyond w []
              = Ok (w', h')
           /\ volume = 0
           /\ TankVolumeSensor._attr_native_value (volume_sensor w') = Some 0).
Proof.
  intros diameter length w unavailable beyond.
  split.
  - split; [reflexivity |].
    apply (proj1 (@malformed_input_ignored sample_lib diameter length
                    unavailable w [])).
    right. exists {| state := "unavailable" |}.
    split; [reflexivity |]. right. left. reflexivity.
  - assert (Hstate : new_state beyond = Some {| state := "120" |})
      by reflexivity.
    assert (Hfloat : @float sample_lib (state {| state := "120" |})
                     = Some 120) by reflexivity.
    assert (Hover : diameter <= 120) by (unfold diameter; cbn; lra).
    split; [exact Hstate |]. split; [exact Hfloat |]. split; [exact Hover |].
    destruct (proj2 (proj2 (@malformed_input_ignored sample_lib diameter
                              length beyond w []))
                {| state := "120" |} 120 Hstate
                ltac:(cbn; discriminate) ltac:(cbn; discriminate) Hfloat)
      as (volume & w' & h' & Hvol & Hrun & _ & _ & _ & Hzero).
    exists volume, w', h'.
    split; [exact Hvol |]. split; [exact Hrun |]. exact (Hzero Hover).
Defined.

(** C10, as the code has it.  For a processed reading [s] the oil depth
    sensor publishes [round (max (diameter - s) 0) 1]: [0] for every
    distance at or beyond the diameter, and for a negative distance the
    rounding of the unclamped difference [diameter - s], with no clamp at
    the diameter: it is never below the rounded diameter, and it need not
    be above the diameter; the volume sensor publishes the clamped volume,
    rounded: the full tank for [s <= 0] and [0] for [s >= diameter]. *)
Theorem published_oil_depth `{PythonLib} (diameter length : R)
  (event : Event) (w : entities) (h : hass) (st : State) (s : R) :
  0 < diameter ->
  new_state event = Some st ->
  state st <> "unknown"%string ->
  state st <> "unavailable"%string ->
  float (state st) = Some s ->
  exists w' h',
    _async_sensor_changed diameter length event w h = Ok (w', h')
    /\ TankOilDepthSensor._attr_native_value (oil_depth_sensor w')
       = Some (round (max (diameter - s) 0) 1)
    /\ In (TankOilDepthSensor._attr_unique_id (oil_depth_sensor w),
           Some (round (max (diameter - s) 0) 1)) h'
    /\ (diameter <= s ->
        TankOilDepthSensor._attr_native_value (oil_depth_sensor w') = Some 0)
    /\ (s < 0 ->
        TankOilDepthSensor._attr_native_value (oil_depth_sensor w')
        = Some (round (diameter - s) 1)
        /\ round diameter 1 <= round (diameter - s) 1)
    /\ (s <= 0 ->
        TankVolumeSensor._attr_native_value (volume_sensor w')
        = Some (round (calc.max_volume diameter length) 1))
    /\ (diameter <= s ->
        TankVolumeSensor._attr_native_value (volume_sensor w') = Some 0).
Proof.
  intros Hd Hstate Hn1 Hn2 Hfloat.
  pose proof (is_unknown_or_unavailable_false _ Hn1 Hn2) as Hknown.
  destruct (sensor_changed_processed diameter length event w h st s
              Hstate Hknown Hfloat) as (volume & percentage & Hvol & Hrun).
  cbv zeta in Hvol, Hrun.
  eexists. eexists. split; [exact Hrun |].
  cbn [oil_depth_sensor volume_sensor fst TankOilDepthSensor.update_depth
       TankVolumeSensor.update_volume TankOilDepthSensor._attr_native_value
       TankVolumeSensor._attr_native_value].
  split; [reflexivity |].
  split.
  { unfold TankDailyUsageSensor.update_usage, async_write_ha_state. cbn.
    destruct (TankDailyUsageSensor._cost_sensor (daily_usage_sensor w));
      cbn; tauto. }
  split.
  { intros Hover. unfold max.
    destruct (Rlt_dec (diameter - s) 0) as [_ | ?];
      [rewrite round_0; reflexivity |].
    replace (diameter - s) with 0 by lra. rewrite round_0. reflexivity. }
  split.
  { intros Hneg.
    assert (Hmax : max (diameter - s) 0 = diameter - s).
    { unfold max. destruct (Rlt_dec (diameter - s) 0); [lra | reflexivity]. }
    rewrite Hmax. split; [reflexivity |].
    apply round_le. lra. }
  split.
  - intros Hfull. unfold calc.calculate_volume in Hvol.
    destruct (Rge_dec s diameter) as [? | _]; [lra |].
    destruct (Rle_dec s 0) as [_ | ?]; [| lra].
    injection Hvol as <-. reflexivity.
  - intros Hover. unfold calc.calculate_volume in Hvol.
    destruct (Rge_dec s diameter) as [_ | ?]; [| lra].
    injection Hvol as <-. rewrite round_0. reflexivity.
Qed.

Lemma published_oil_depth_witness :
  let diameter := data_tank_diameter sample_entry in
  let length := data_tank_length sample_entry in
  let w := setup_entities sample_entry in
  let event := {| new_state := Some {| state := "42.5" |} |} in
  0 < diameter
  /\ new_state event = Some {| state := "42.5" |}
  /\ @float sample_lib "42.5" = Some (85 / 2)
  /\ exists w' h',
       @_async_sensor_changed sample_lib diameter length event w []
       = Ok (w', h')
       /\ TankOilDepthSensor._attr_native_value (oil_depth_sensor w')
          = Some (round (max (diameter - 85 / 2) 0) 1).
Proof.
  intros diameter length w event.
  assert (Hd : 0 < diameter) by (unfold diameter; cbn; lra).
  assert (Hstate : new_state event = Some {| state := "42.5" |})
    by reflexivity.
  assert (Hfloat : @float sample_lib (state {| state := "42.5" |})
                   = Some (85 / 2)) by reflexivity.
  split; [exact Hd |]. split; [exact Hstate |]. split; [exact Hfloat |].
  destruct (@published_oil_depth sample_lib diameter length event w []
              {| state := "42.5" |} (85 / 2) Hd Hstate
              ltac:(cbn; discriminate) ltac:(cbn; discriminate) Hfloat)
    as (w' & h' & Hrun & Hvalue & _).
  exists w', h'. split; [exact Hrun | exact Hvalue].
Defined.

(** C10 as stated fails: with a diameter of 100.04 cm, the reading -0.001
    is negative, yet the depth that is published, 100.0, is not above the
    diameter. *)
Lemma negative_distance_published_not_above_diameter :
  let diameter := data_tank_diameter sample_entry in
  let length := data_tank_length sample_entry in
  let w := setup_entities sample_entry in
  let event := {| new_state := Some {| state := "-0.001" |} |} in
  @float sample_lib "-0.001" = Some (- (1 / 1000))
  /\ - (1 / 1000) < 0
  /\ exists w' h',
       @_async_sensor_changed sample_lib diameter length event w []
       = Ok (w', h')
       /\ TankOilDepthSensor._attr_native_value (oil_depth_sensor w')
          = Some 100
       /\ ~ diameter < 100.
Proof.
  intros diameter length w event.
  split; [reflexivity |]. split; [lra |].
  destruct (@sensor_changed_processed sample_lib diameter length event w []
              {| state := "-0.001" |} (- (1 / 1000))
              eq_refl eq_refl eq_refl)
    as (volume & percentage & _ & Hrun).
  cbv zeta in Hrun.
  eexists. eexists. split; [exact Hrun |].
  cbn [oil_depth_sensor fst TankOilDepthSensor.update_depth
       TankOilDepthSensor._attr_native_value].
  assert (Hdiam : diameter = 2501 / 25) by reflexivity.
  split; [| lra].
  f_equal. rewrite Hdiam. unfold max.
  destruct (Rlt_dec (2501 / 25 - - (1 / 1000)) 0) as [? | _]; [lra |].
  unfold round. replace (10 ^ 1) with 10 by (simpl; lra).
  rewrite (round_half_even_near _ 1000) by lra. lra.
Qed.

End Handler.

(** ** The cases of the repository's tests *)

Section Tests.

(** test_volume.py, [test_half_full]: half the depth is half the tank. *)
Example test_segment_half_full :
  calc.segment_volume 50 100 200 = Ok (calc.max_volume 100 200 / 2).
Proof.
  rewrite (segment_volume_in_range 50 100 200) by lra. cbv zeta.
  replace ((100 / 2 - 50) / (100 / 2)) with 0 by lra.
  rewrite acos_0, cos_PI2, sin_PI2.
  f_equal. unfold calc.max_volume, math.pi. lra.
Qed.

(** test_daily_usage.py, [test_consumption_after_refill] *)
Example test_consumption_after_refill :
  TankDailyUsageSensor._daily_usage
    (fst (feed [500; 490; 900; 880]
            (TankDailyUsageSensor.__init__ sample_entry) []))
  = 30.
Proof.
  cbn.
  destruct (Rlt_dec 490 500) as [_ | ?]; [| lra].
  destruct (Rlt_dec 900 490) as [? | _]; [lra |].
  destruct (Rlt_dec 880 900) as [_ | ?]; [| lra].
  lra.
Qed.

(** test_daily_usage.py, [test_native_value_rounded]: 0.334 shows as 0.3. *)
Example test_native_value_rounded :
  TankDailyUsageSensor._attr_native_value
    (fst (feed [500; 499666 / 1000]
            (TankDailyUsageSensor.__init__ sample_entry) []))
  = Some (3 / 10).
Proof.
  cbn.
  destruct (Rlt_dec (499666 / 1000) 500) as [_ | ?]; [| lra].
  f_equal. unfold round.
  replace (10 ^ 1) with 10 by (simpl; lra).
  rewrite (round_half_even_near _ 3) by lra. lra.
Qed.

(** test_daily_usage.py, [test_cost_rounding]: 3.333 l at 0.55 is 1.83. *)
Example test_cost_rounding :
  TankDailyCostSensor._attr_native_value
    (fst (TankDailyCostSensor.update_cost (3333 / 1000)
            (TankDailyCostSensor.__init__ sample_entry
               DEFAULT_PRICE_PER_LITRE) []))
  = Some (183 / 100).
Proof.
  cbn. f_equal. unfold round, DEFAULT_PRICE_PER_LITRE.
  replace (10 ^ 2) with 100 by (simpl; lra).
  rewrite (round_half_even_near _ 183) by lra. lra.
Qed.

(** test_daily_usage.py, [test_first_reading_after_reset_no_usage] *)
Example test_first_reading_after_reset_no_usage :
  let sensor :=
    fst (feed [500; 490] (TankDailyUsageSensor.__init__ sample_entry) []) in
  let sensor' :=
    fst (TankDailyUsageSensor._async_midnight_reset sample_now sample_now
           sensor []) in
  TankDailyUsageSensor._daily_usage
    (fst (TankDailyUsageSensor.update_usage 488 sensor' []))
  = 0
  /\ TankDailyUsageSensor._daily_usage
       (fst (feed [488; 480] sensor' []))
     = 8.
Proof.
  cbn. split; [reflexivity |].
  destruct (Rlt_dec 480 488) as [_ | ?]; lra.
Qed.

(** test_stored_data.py, [test_round_trip], [test_from_dict_defaults] and
    [test_from_dict_returns_none_for_bad_base] *)
Example test_stored_data (data : DailyUsageStoredData.t)
  (base : SensorExtraStoredData.t) :
  DailyUsageStoredData.from_dict (DailyUsageStoredData.as_dict data)
  = Some data
  /\ DailyUsageStoredData.from_dict (SensorExtraStoredData.as_dict base)
     = Some (DailyUsageStoredData.__init__ base 0 None "")
  /\ DailyUsageStoredData.from_dict
       {| key_native_value := None;
          key_native_unit_of_measurement := None;
          key_daily_usage := None;
          key_last_volume := None;
          key_last_reset := None |}
     = None.
Proof.
  destruct data as [[nv unit] du lv lr], base as [nv' unit'].
  repeat split; reflexivity.
Qed.

End Tests.

(** * Further properties *)

(** ** Geometry: range and monotonicity *)

Section GeometryRange.

Import calc.

(** The area factor lies strictly between [0] and [PI] inside [(0, PI)]. *)
Lemma sector_minus_triangle_bounds (t : R) :
  0 < t < PI -> 0 < t - sin t * cos t < PI.
Proof.
  intros [H0 HPI].
  pose proof (sector_minus_triangle_increasing 0 t (Rle_refl 0) H0
                (Rlt_le _ _ HPI)) as Hlo.
  pose proof (sector_minus_triangle_increasing t PI (Rlt_le _ _ H0) HPI
                (Rle_refl PI)) as Hhi.
  rewrite sin_0 in Hlo. rewrite sin_PI in Hhi. lra.
Qed.

(** The argument of [acos] in [segment_volume], in range. *)
Lemma acos_argument_in_range (x d : R) :
  0 < x < d -> -1 < (d / 2 - x) / (d / 2) < 1.
Proof.
  intros [Hx Hd].
  assert (Hr : 0 < d / 2) by lra.
  split.
  - apply Rmult_lt_reg_r with (d / 2); [exact Hr |].
    unfold Rdiv at 2. rewrite Rmult_assoc, Rinv_l by lra. lra.
  - apply Rmult_lt_reg_r with (d / 2); [exact Hr |].
    unfold Rdiv at 1. rewrite Rmult_assoc, Rinv_l by lra. lra.
Qed.

Lemma segment_volume_below (x d l : R) :
  x <= 0 -> segment_volume x d l = Ok 0.
Proof.
  intros Hx. unfold segment_volume.
  destruct (Rle_dec x 0) as [_ | ?]; [reflexivity | lra].
Qed.

Lemma segment_volume_above (x d l : R) :
  0 < x -> d <= x -> segment_volume x d l = Ok (max_volume d l).
Proof.
  intros Hx Hd. unfold segment_volume.
  destruct (Rle_dec x 0) as [? | _]; [lra |].
  destruct (Rge_dec x d) as [_ | ?]; [reflexivity | lra].
Qed.

Lemma max_volume_pos (d l : R) : 0 < d -> 0 < l -> 0 < max_volume d l.
Proof.
  intros Hd Hl. rewrite max_volume_eq.
  assert (0 < (d / 2) ^ 2) by (apply pow_lt; lra).
  pose proof PI_RGT_0.
  assert (0 < PI * (d / 2) ^ 2) by (apply Rmult_lt_0_compat; assumption).
  assert (0 < PI * (d / 2) ^ 2 * l) by (apply Rmult_lt_0_compat; assumption).
  lra.
Qed.

(** Inside the tank the segment is a proper part of it. *)
Lemma segment_volume_inside (x d l : R) :
  0 < x < d -> 0 < l ->
  exists v, segment_volume x d l = Ok v /\ 0 < v < max_volume d l.
Proof.
  intros Hx Hl.
  pose proof (segment_volume_in_range x d l Hx) as E. cbv zeta in E.
  eexists. split; [exact E |].
  pose proof (acos_argument_in_range x d Hx) as Hu.
  pose proof (acos_bound_lt _ Hu) as Ht.
  pose proof (sector_minus_triangle_bounds _ Ht) as Hf.
  set (f := acos ((d / 2 - x) / (d / 2))
            - sin (acos ((d / 2 - x) / (d / 2)))
              * cos (acos ((d / 2 - x) / (d / 2)))) in *.
  assert (Hk : 0 < (d / 2) ^ 2 * l / 1000).
  { assert (0 < (d / 2) ^ 2) by (apply pow_lt; lra).
    assert (0 < (d / 2) ^ 2 * l) by (apply Rmult_lt_0_compat; assumption).
    lra. }
  rewrite max_volume_eq.
  replace ((d / 2) ^ 2 * f * l / 1000) with ((d / 2) ^ 2 * l / 1000 * f)
    by (unfold Rdiv; ring).
  replace (PI * (d / 2) ^ 2 * l / 1000) with ((d / 2) ^ 2 * l / 1000 * PI)
    by (unfold Rdiv; ring).
  split.
  - apply Rmult_lt_0_compat; lra.
  - apply Rmult_lt_compat_l; lra.
Qed.

(** Inside the tank a deeper segment is strictly larger. *)
Lemma segment_volume_increasing_inside (x1 x2 d l : R) :
  0 < x1 -> x1 < x2 -> x2 < d -> 0 < l ->
  exists v1 v2,
    segment_volume x1 d l = Ok v1
    /\ segment_volume x2 d l = Ok v2
    /\ v1 < v2.
Proof.
  intros H1 H12 H2 Hl.
  pose proof (segment_volume_in_range x1 d l ltac:(lra)) as E1.
  pose proof (segment_volume_in_range x2 d l ltac:(lra)) as E2.
  cbv zeta in E1, E2.
  eexists. eexists. split; [exact E1 |]. split; [exact E2 |].
  pose proof (acos_argument_in_range x1 d ltac:(lra)) as Hu1.
  pose proof (acos_argument_in_range x2 d ltac:(lra)) as Hu2.
  set (u1 := (d / 2 - x1) / (d / 2)) in *.
  set (u2 := (d / 2 - x2) / (d / 2)) in *.
  assert (Hu : u2 < u1).
  { assert (Hinv : 0 < / (d / 2)) by (apply Rinv_0_lt_compat; lra).
    unfold u1, u2, Rdiv. apply Rmult_lt_compat_r; [exact Hinv | lra]. }
  pose proof (acos_strictly_decreasing u2 u1 ltac:(lra) Hu ltac:(lra))
    as Hacos.
  pose proof (acos_bound u1) as [B1 _].
  pose proof (acos_bound u2) as [_ B2].
  pose proof (sector_minus_triangle_increasing _ _ B1 Hacos B2) as Hinc.
  assert (Hk : 0 < (d / 2) ^ 2 * l / 1000).
  { assert (0 < (d / 2) ^ 2) by (apply pow_lt; lra).
    assert (0 < (d / 2) ^ 2 * l) by (apply Rmult_lt_0_compat; assumption).
    lra. }
  replace ((d / 2) ^ 2 * (acos u1 - sin (acos u1) * cos (acos u1)) * l / 1000)
    with ((d / 2) ^ 2 * l / 1000 * (acos u1 - sin (acos u1) * cos (acos u1)))
    by (unfold Rdiv; ring).
  replace ((d / 2) ^ 2 * (acos u2 - sin (acos u2) * cos (acos u2)) * l / 1000)
    with ((d / 2) ^ 2 * l / 1000 * (acos u2 - sin (acos u2) * cos (acos u2)))
    by (unfold Rdiv; ring).
  apply Rmult_lt_compat_l; assumption.
Qed.

(** For a positive diameter, [calculate_volume] is the segment of the liquid
    depth at every sensor distance, the clamped ones included. *)
Lemma calculate_volume_as_segment (s d l : R) :
  0 < d -> calculate_volume s d l = segment_volume (d - s) d l.
Proof.
  intros Hd.
  destruct (Rle_lt_dec d s) as [H1 | H1].
  { rewrite segment_volume_below by lra. unfold calculate_volume.
    destruct (Rge_dec s d) as [_ | ?]; [reflexivity | lra]. }
  destruct (Rle_lt_dec s 0) as [H0 | H0].
  { rewrite segment_volume_above by lra. unfold calculate_volume.
    destruct (Rge_dec s d) as [? | _]; [lra |].
    destruct (Rle_dec s 0) as [_ | ?]; [reflexivity | lra]. }
  destruct (calculate_volume_in_range s d l ltac:(lra)) as [Ec Es].
  rewrite Ec, Es. reflexivity.
Qed.

End GeometryRange.

(** ** Geometry: the volume as a function of the level *)

Section GeometryLevel.

Import calc.

(** X1, in exact real arithmetic.  For a tank with [d > 0] and [l > 0],
    [segment_volume] returns a volume between [0] and the full tank for
    every fill depth, strictly between them for a depth inside [(0, d)].
    (On binary64 numbers the result can leave that range by a rounding
    error next to the ends, section Binary64 below.) *)
Theorem segment_volume_range (x d l : R) :
  0 < d -> 0 < l ->
  exists v,
    segment_volume x d l = Ok v
    /\ 0 <= v <= max_volume d l
    /\ (0 < x < d -> 0 < v < max_volume d l).
Proof.
  intros Hd Hl.
  pose proof (max_volume_pos d l Hd Hl) as Hmax.
  destruct (Rle_lt_dec x 0) as [H0 | H0].
  { exists 0. split; [apply segment_volume_below; exact H0 |].
    split; lra. }
  destruct (Rle_lt_dec d x) as [H1 | H1].
  { exists (max_volume d l).
    split; [apply segment_volume_above; assumption |]. split; lra. }
  destruct (segment_volume_inside x d l ltac:(lra) Hl) as (v & E & Hv).
  exists v. split; [exact E |]. split; [lra | intros _; exact Hv].
Qed.

Lemma segment_volume_range_witness :
  0 < 100 /\ 0 < 200 /\ 0 < 25 < 100
  /\ exists v,
       segment_volume 25 100 200 = Ok v
       /\ 0 <= v <= max_volume 100 200
       /\ 0 < v < max_volume 100 200.
Proof.
  assert (Hd : 0 < 100) by lra.
  assert (Hl : 0 < 200) by lra.
  assert (Hx : 0 < 25 < 100) by lra.
  split; [exact Hd |]. split; [exact Hl |]. split; [exact Hx |].
  destruct (segment_volume_range 25 100 200 Hd Hl) as (v & E & Hv & Hin).
  exists v. split; [exact E |]. split; [exact Hv | exact (Hin Hx)].
Defined.

(** X2, in exact real arithmetic.  For [d > 0], [calculate_volume] at any
    sensor distance, in range or clamped, is the segment of the liquid
    depth [d - s]: the identity that the claims have on [(0, d)] holds on
    the whole line. *)
Theorem calculate_volume_is_segment_everywhere (s d l : R) :
  0 < d ->
  exists v,
    calculate_volume s d l = Ok v /\ segment_volume (d - s) d l = Ok v.
Proof.
  intros Hd.
  destruct (calculate_volume_total s d l) as [v Hv].
  exists v. split; [exact Hv |].
  rewrite <- (calculate_volume_as_segment s d l Hd). exact Hv.
Qed.

Lemma calculate_volume_is_segment_everywhere_witness :
  0 < 100
  /\ exists v,
       calculate_volume (-5) 100 200 = Ok v
       /\ segment_volume (100 - -5) 100 200 = Ok v.
Proof.
  assert (Hd : 0 < 100) by lra.
  split; [exact Hd |].
  exact (calculate_volume_is_segment_everywhere (-5) 100 200 Hd).
Defined.

(** X3, in exact real arithmetic.  The volume sample is within the tank:
    for [d > 0], [l > 0] and every sensor distance,
    [0 <= calculate_volume <= max_volume], strictly inside for a distance
    in [(0, d)].  (On binary64 numbers the result can leave that range by a
    rounding error next to the ends, section Binary64 below.) *)
Theorem calculate_volume_range (s d l : R) :
  0 < d -> 0 < l ->
  exists v,
    calculate_volume s d l = Ok v
    /\ 0 <= v <= max_volume d l
    /\ (0 < s < d -> 0 < v < max_volume d l).
Proof.
  intros Hd Hl.
  rewrite (calculate_volume_as_segment s d l Hd).
  destruct (Rle_lt_dec (d - s) 0) as [H0 | H0].
  { exists 0. split; [apply segment_volume_below; exact H0 |].
    pose proof (max_volume_pos d l Hd Hl). split; lra. }
  destruct (Rle_lt_dec d (d - s)) as [H1 | H1].
  { exists (max_volume d l).
    split; [apply segment_volume_above; assumption |].
    pose proof (max_volume_pos d l Hd Hl). split; lra. }
  destruct (segment_volume_inside (d - s) d l ltac:(lra) Hl) as (v & E & Hv).
  exists v. split; [exact E |]. split; [lra | intros _; exact Hv].
Qed.

Lemma calculate_volume_range_witness :
  0 < 100 /\ 0 < 200 /\ 0 < 30 < 100
  /\ exists v,
       calculate_volume 30 100 200 = Ok v
       /\ 0 <= v <= max_volume 100 200
       /\ 0 < v < max_volume 100 200.
Proof.
  assert (Hd : 0 < 100) by lra.
  assert (Hl : 0 < 200) by lra.
  assert (Hs : 0 < 30 < 100) by lra.
  split; [exact Hd |]. split; [exact Hl |]. split; [exact Hs |].
  destruct (calculate_volume_range 30 100 200 Hd Hl) as (v & E & Hv & Hin).
  exists v. split; [exact E |]. split; [exact Hv | exact (Hin Hs)].
Defined.

(** Deeper never means less, over the whole line. *)
Lemma segment_volume_monotone (x1 x2 d l : R) :
  0 < d -> 0 < l -> x1 <= x2 ->
  exists v1 v2,
    segment_volume x1 d l = Ok v1
    /\ segment_volume x2 d l = Ok v2
    /\ v1 <= v2.
Proof.
  intros Hd Hl Hx.
  pose proof (max_volume_pos d l Hd Hl) as Hmax.
  destruct (Rle_lt_dec x1 0) as [H0 | H0].
  { (* the first is empty *)
    destruct (Rle_lt_dec x2 0) as [H0' | H0'].
    - exists 0, 0. rewrite !segment_volume_below by assumption.
      repeat split; lra.
    - destruct (Rle_lt_dec d x2) as [H1' | H1'].
      + exists 0, (max_volume d l).
        rewrite segment_volume_below, segment_volume_above by assumption.
        repeat split; lra.
      + destruct (segment_volume_inside x2 d l ltac:(lra) Hl)
          as (v2 & E2 & Hv2).
        exists 0, v2. rewrite segment_volume_below by assumption.
        split; [reflexivity |]. split; [exact E2 | lra]. }
  destruct (Rle_lt_dec d x2) as [H1 | H1].
  { (* the second is full *)
    destruct (Rle_lt_dec d x1) as [H1' | H1'].
    - exists (max_volume d l), (max_volume d l).
      rewrite !segment_volume_above by (assumption || lra).
      repeat split; lra.
    - destruct (segment_volume_inside x1 d l ltac:(lra) Hl)
        as (v1 & E1 & Hv1).
      exists v1, (max_volume d l).
      rewrite (segment_volume_above x2) by (assumption || lra).
      split; [exact E1 |]. split; [reflexivity | lra]. }
  destruct (Req_dec_T x1 x2) as [<- | Hne].
  - destruct (segment_volume_inside x1 d l ltac:(lra) Hl) as (v1 & E1 & _).
    exists v1, v1. split; [exact E1 |]. split; [exact E1 | lra].
  - destruct (segment_volume_increasing_inside x1 x2 d l H0 ltac:(lra) H1 Hl)
      as (v1 & v2 & E1 & E2 & Hlt).
    exists v1, v2. split; [exact E1 |]. split; [exact E2 | lra].
Qed.

(** X4, in exact real arithmetic.  Monotonicity of [segment_volume]: for
    [d > 0], [l > 0], a depth that is not smaller gives a volume that is
    not smaller, on the whole line, and strictly more between two depths
    inside [(0, d)]. *)
Theorem segment_volume_nondecreasing (x1 x2 d l : R) :
  0 < d -> 0 < l -> x1 <= x2 ->
  exists v1 v2,
    segment_volume x1 d l = Ok v1
    /\ segment_volume x2 d l = Ok v2
    /\ v1 <= v2
    /\ (0 < x1 -> x1 < x2 -> x2 < d -> v1 < v2).
Proof.
  intros Hd Hl Hx.
  destruct (segment_volume_monotone x1 x2 d l Hd Hl Hx)
    as (v1 & v2 & E1 & E2 & Hle).
  exists v1, v2. split; [exact E1 |]. split; [exact E2 |].
  split; [exact Hle |].
  intros H0 H12 H2.
  destruct (segment_volume_increasing_inside x1 x2 d l H0 H12 H2 Hl)
    as (w1 & w2 & F1 & F2 & Hlt).
  rewrite E1 in F1. rewrite E2 in F2.
  injection F1 as <-. injection F2 as <-. exact Hlt.
Qed.

Lemma segment_volume_nondecreasing_witness :
  0 < 100 /\ 0 < 200 /\ 25 <= 75 /\ 0 < 25 /\ 25 < 75 /\ 75 < 100
  /\ exists v1 v2,
       segment_volume 25 100 200 = Ok v1
       /\ segment_volume 75 100 200 = Ok v2
       /\ v1 <= v2
       /\ v1 < v2.
Proof.
  assert (Hd : 0 < 100) by lra.
  assert (Hl : 0 < 200) by lra.
  assert (Hx : 25 <= 75) by lra.
  assert (H0 : 0 < 25) by lra.
  assert (H12 : 25 < 75) by lra.
  assert (H2 : 75 < 100) by lra.
  repeat (split; [assumption |]).
  destruct (segment_volume_nondecreasing 25 75 100 200 Hd Hl Hx)
    as (v1 & v2 & E1 & E2 & Hle & Hlt).
  exists v1, v2. split; [exact E1 |]. split; [exact E2 |].
  split; [exact Hle | exact (Hlt H0 H12 H2)].
Defined.

(** X5, in exact real arithmetic.  Monotonicity of [calculate_volume] over
    the whole line: for [d > 0], [l > 0] and any two sensor distances
    [s1 <= s2], clamped or not, the volume at [s2] is not above the volume
    at [s1]. *)
Theorem calculate_volume_nonincreasing (s1 s2 d l : R) :
  0 < d -> 0 < l -> s1 <= s2 ->
  exists v1 v2,
    calculate_volume s1 d l = Ok v1
    /\ calculate_volume s2 d l = Ok v2
    /\ v2 <= v1.
Proof.
  intros Hd Hl Hs.
  rewrite !(calculate_volume_as_segment _ d l Hd).
  destruct (segment_volume_monotone (d - s2) (d - s1) d l Hd Hl ltac:(lra))
    as (v2 & v1 & E2 & E1 & Hle).
  exists v1, v2. split; [exact E1 |]. split; [exact E2 | exact Hle].
Qed.

Lemma calculate_volume_nonincreasing_witness :
  0 < 100 /\ 0 < 200 /\ -3 <= 250
  /\ exists v1 v2,
       calculate_volume (-3) 100 200 = Ok v1
       /\ calculate_volume 250 100 200 = Ok v2
       /\ v2 <= v1.
Proof.
  assert (Hd : 0 < 100) by lra.
  assert (Hl : 0 < 200) by lra.
  assert (Hs : -3 <= 250) by lra.
  split; [exact Hd |]. split; [exact Hl |]. split; [exact Hs |].
  exact (calculate_volume_nonincreasing (-3) 250 100 200 Hd Hl Hs).
Defined.

(** X6, in exact real arithmetic.  Half full: for [d > 0], [l > 0], a fill
    depth and a sensor distance of [d / 2] both give exactly half the tank,
    and inside [(0, d)] a sensor distance short of [d / 2] gives more than
    half, one beyond it less. *)
Theorem half_full_is_half_the_tank (d l : R) :
  0 < d -> 0 < l ->
  segment_volume (d / 2) d l = Ok (max_volume d l / 2)
  /\ calculate_volume (d / 2) d l = Ok (max_volume d l / 2)
  /\ (forall s v,
        0 < s < d -> calculate_volume s d l = Ok v ->
        (s < d / 2 -> max_volume d l / 2 < v)
        /\ (d / 2 < s -> v < max_volume d l / 2)).
Proof.
  intros Hd Hl.
  assert (Hhalf : segment_volume (d / 2) d l = Ok (max_volume d l / 2)).
  { rewrite (segment_volume_in_range (d / 2) d l) by lra. cbv zeta.
    replace ((d / 2 - d / 2) / (d / 2)) with 0 by (field; lra).
    rewrite acos_0, cos_PI2, sin_PI2, max_volume_eq.
    f_equal. unfold Rdiv. ring. }
  split; [exact Hhalf |].
  split.
  { rewrite (calculate_volume_as_segment _ d l Hd).
    replace (d - d / 2) with (d / 2) by lra. exact Hhalf. }
  intros s v Hs Hv.
  rewrite (calculate_volume_as_segment _ d l Hd) in Hv.
  split; intros Hside.
  - destruct (segment_volume_increasing_inside (d / 2) (d - s) d l
                ltac:(lra) ltac:(lra) ltac:(lra) Hl)
      as (v1 & v2 & E1 & E2 & Hlt).
    rewrite Hhalf in E1. rewrite Hv in E2.
    injection E1 as <-. injection E2 as <-. exact Hlt.
  - destruct (segment_volume_increasing_inside (d - s) (d / 2) d l
                ltac:(lra) ltac:(lra) ltac:(lra) Hl)
      as (v1 & v2 & E1 & E2 & Hlt).
    rewrite Hhalf in E2. rewrite Hv in E1.
    injection E1 as <-. injection E2 as <-. exact Hlt.
Qed.

Lemma half_full_is_half_the_tank_witness :
  0 < 100 /\ 0 < 200
  /\ segment_volume (100 / 2) 100 200 = Ok (max_volume 100 200 / 2)
  /\ calculate_volume (100 / 2) 100 200 = Ok (max_volume 100 200 / 2)
  /\ 0 < 30 < 100 /\ 30 < 100 / 2
  /\ exists v,
       calculate_volume 30 100 200 = Ok v /\ max_volume 100 200 / 2 < v.
Proof.
  assert (Hd : 0 < 100) by lra.
  assert (Hl : 0 < 200) by lra.
  assert (Hs : 0 < 30 < 100) by lra.
  assert (Hside : 30 < 100 / 2) by lra.
  split; [exact Hd |]. split; [exact Hl |].
  destruct (half_full_is_half_the_tank 100 200 Hd Hl) as (Hseg & Hcalc & Hin).
  split; [exact Hseg |]. split; [exact Hcalc |].
  split; [exact Hs |]. split; [exact Hside |].
  destruct (calculate_volume_total 30 100 200) as [v Hv].
  exists v. split; [exact Hv |].
  exact (proj1 (Hin 30 v Hs Hv) Hside).
Defined.

(** X7.  No domain error: whatever the depth, the diameter and the length,
    zero and negative ones included, the division by the radius,
    [math.acos] and [math.sqrt] are only reached inside their domains, so
    the volume functions raise neither [ZeroDivisionError] nor
    [ValueError].  (The [OverflowError] of squaring a number above about
    1e154 is not an error of this embedding; it is in [binary64].) *)
Theorem volume_functions_never_raise (x d l : R) :
  (exists v, segment_volume x d l = Ok v)
  /\ (exists v, calculate_volume x d l = Ok v).
Proof.
  split; [| apply calculate_volume_total].
  destruct (Rle_lt_dec x 0) as [H0 | H0].
  { eexists. apply segment_volume_below. exact H0. }
  destruct (Rle_lt_dec d x) as [H1 | H1].
  { eexists. apply segment_volume_above; assumption. }
  eexists. apply (segment_volume_in_range x d l). lra.
Qed.

(** X8, in exact real arithmetic.  The volume is proportional to the tank
    length: scaling the length by [k] scales [calculate_volume] by [k], at
    every sensor distance. *)
Theorem calculate_volume_proportional_to_length (s d l k : R) :
  exists v,
    calculate_volume s d l = Ok v
    /\ calculate_volume s d (k * l) = Ok (k * v).
Proof.
  destruct (Rle_lt_dec d s) as [H1 | H1].
  { exists 0. unfold calculate_volume.
    destruct (Rge_dec s d) as [_ | ?]; [| lra].
    split; [reflexivity | f_equal; ring]. }
  destruct (Rle_lt_dec s 0) as [H0 | H0].
  { exists (max_volume d l). unfold calculate_volume.
    destruct (Rge_dec s d) as [? | _]; [lra |].
    destruct (Rle_dec s 0) as [_ | ?]; [| lra].
    split; [reflexivity |]. f_equal. rewrite !max_volume_eq.
    unfold Rdiv. ring. }
  destruct (calculate_volume_in_range s d l ltac:(lra)) as [E _].
  destruct (calculate_volume_in_range s d (k * l) ltac:(lra)) as [Ek _].
  cbv zeta in E, Ek.
  eexists. split; [exact E |]. rewrite Ek. f_equal. unfold Rdiv. ring.
Qed.

End GeometryLevel.


(** ** The accumulator over arbitrary sample sequences, and the cost *)

Section AccumulatorSequences.

Import TankDailyUsageSensor.

(** What [update_usage] does to the wired cost sensor and to the written
    states. *)
Lemma update_usage_cost (v : R) (self : t) (h : hass)
  (c : TankDailyCostSensor.t) :
  _cost_sensor self = Some c ->
  let self' := fst (update_usage v self h) in
  let cost := round (_daily_usage self' * TankDailyCostSensor._price_per_litre c)
                2 in
  _cost_sensor self'
  = Some {| TankDailyCostSensor._entry := TankDailyCostSensor._entry c;
            TankDailyCostSensor._attr_unique_id :=
              TankDailyCostSensor._attr_unique_id c;
            TankDailyCostSensor._price_per_litre :=
              TankDailyCostSensor._price_per_litre c;
            TankDailyCostSensor._attr_native_value := Some cost |}
  /\ snd (update_usage v self h)
     = (TankDailyCostSensor._attr_unique_id c, Some cost)
       :: (_attr_unique_id self, Some (round (_daily_usage self') 1)) :: h.
Proof.
  intros Hc. unfold update_usage, TankDailyCostSensor.update_cost,
    async_write_ha_state.
  cbn. rewrite Hc. cbn. split; reflexivity.
Qed.

Lemma update_usage_no_cost (v : R) (self : t) (h : hass) :
  _cost_sensor self = None ->
  let self' := fst (update_usage v self h) in
  _cost_sensor self' = None
  /\ snd (update_usage v self h)
     = (_attr_unique_id self, Some (round (_daily_usage self') 1)) :: h.
Proof.
  intros Hc. unfold update_usage, async_write_ha_state.
  cbn. rewrite Hc. cbn. split; reflexivity.
Qed.

(** What [update_usage] leaves alone, and the native value it sets. *)
Lemma update_usage_frame (v : R) (self : t) (h : hass) :
  let self' := fst (update_usage v self h) in
  _entry self' = _entry self
  /\ _attr_unique_id self' = _attr_unique_id self
  /\ _attr_last_reset self' = _attr_last_reset self
  /\ _attr_native_value self' = Some (round (_daily_usage self') 1).
Proof.
  unfold update_usage. cbn.
  destruct (_cost_sensor self); cbn; repeat split; reflexivity.
Qed.

(** After any samples, the usage and the last volume depend only on the
    usage and the last volume before. *)
Lemma feed_same_fields (volumes : list R) (a b : t) (ha hb : hass) :
  _daily_usage a = _daily_usage b ->
  _last_volume a = _last_volume b ->
  _daily_usage (fst (feed volumes a ha)) = _daily_usage (fst (feed volumes b hb))
  /\ _last_volume (fst (feed volumes a ha))
     = _last_volume (fst (feed volumes b hb)).
Proof.
  revert a b ha hb.
  induction volumes as [| v vs IH]; intros a b ha hb Hu Hl.
  - cbn. split; assumption.
  - rewrite !feed_cons.
    destruct (update_usage_fields v a ha) as [Ea La].
    destruct (update_usage_fields v b hb) as [Eb Lb].
    apply IH.
    + rewrite Ea, Eb, Hu, Hl. reflexivity.
    + rewrite La, Lb. reflexivity.
Qed.

(** X9.  Any sequence of samples from a baseline [v0]: the daily usage does
    not end below where it started, the last sample becomes the last
    volume, and a sequence that never goes down, refills and repeated
    readings only, leaves the daily usage exactly as it was. *)
Theorem samples_move_the_baseline (self : t) (h : hass) (v0 : R)
  (volumes : list R) :
  _last_volume self = Some v0 ->
  let self' := fst (feed volumes self h) in
  _daily_usage self <= _daily_usage self'
  /\ _last_volume self' = Some (last volumes v0)
  /\ (nondecreasing_from v0 volumes -> _daily_usage self' = _daily_usage self).
Proof.
  intros Hbase. cbv zeta.
  split; [apply feed_nondecreasing |].
  revert self h v0 Hbase.
  induction volumes as [| v vs IH]; intros self h v0 Hbase.
  - cbn. split; [exact Hbase | reflexivity].
  - rewrite feed_cons, last_cons_default.
    destruct (update_usage_fields v self h) as [Eu El].
    rewrite Hbase in Eu.
    destruct (IH (fst (update_usage v self h)) (snd (update_usage v self h))
                v El) as (Hlast & Hrise).
    split; [exact Hlast |].
    intros [Hle Hrest]. rewrite (Hrise Hrest), Eu.
    destruct (Rlt_dec v v0); [lra | reflexivity].
Qed.

Lemma samples_move_the_baseline_witness :
  let self := fst (feed [500; 490] (__init__ sample_entry) []) in
  let self' := fst (feed [490; 700; 900] self []) in
  _last_volume self = Some 490
  /\ nondecreasing_from 490 [490; 700; 900]
  /\ _last_volume self' = Some (last [490; 700; 900] 490)
  /\ _daily_usage self' = _daily_usage self.
Proof.
  intros self self'.
  assert (Hbase : _last_volume self = Some 490) by reflexivity.
  assert (Hrise : nondecreasing_from 490 [490; 700; 900])
    by (cbn; repeat split; lra).
  split; [exact Hbase |]. split; [exact Hrise |].
  destruct (samples_move_the_baseline self [] 490 [490; 700; 900] Hbase)
    as (_ & Hlast & Hsame).
  split; [exact Hlast | exact (Hsame Hrise)].
Defined.

(** X10.  A midnight reset forgets the past: whatever the sensor held, the
    daily usage and the last volume after the reset and any sequence of
    samples are those of a freshly constructed sensor fed the same
    samples; the first sample after the reset only sets the baseline. *)
Theorem reset_starts_afresh (self : t) (now clock : datetime.t)
  (h0 h h' : hass) (entry : ConfigEntry) (volumes : list R) (v : R) :
  let restarted := fst (_async_midnight_reset now clock self h0) in
  _daily_usage (fst (feed volumes restarted h))
  = _daily_usage (fst (feed volumes (__init__ entry) h'))
  /\ _last_volume (fst (feed volumes restarted h))
     = _last_volume (fst (feed volumes (__init__ entry) h'))
  /\ _daily_usage (fst (feed [v] restarted h)) = 0
  /\ _last_volume (fst (feed [v] restarted h)) = Some v.
Proof.
  cbv zeta.
  destruct (midnight_reset_fields now clock self h0) as (Ed & Ev & _).
  destruct (feed_same_fields volumes
              (fst (_async_midnight_reset now clock self h0))
              (__init__ entry) h h') as [Hu Hl].
  { rewrite Ed. reflexivity. }
  { rewrite Ev. reflexivity. }
  split; [exact Hu |]. split; [exact Hl |].
  cbn [feed].
  destruct (update_usage_fields v
              (fst (_async_midnight_reset now clock self h0)) h) as [Eu El].
  destruct (update_usage v (fst (_async_midnight_reset now clock self h0)) h)
    as [self' h''].
  cbn [fst] in *. rewrite Eu, Ev, Ed, El. split; reflexivity.
Qed.

(** The cost sensor stays wired, with its price, through any samples. *)
Lemma feed_cost (volumes : list R) (self : t) (h : hass)
  (c : TankDailyCostSensor.t) :
  _cost_sensor self = Some c ->
  volumes <> [] ->
  exists c',
    _cost_sensor (fst (feed volumes self h)) = Some c'
    /\ TankDailyCostSensor._price_per_litre c'
       = TankDailyCostSensor._price_per_litre c
    /\ TankDailyCostSensor._attr_native_value c'
       = Some (round (_daily_usage (fst (feed volumes self h))
                      * TankDailyCostSensor._price_per_litre c) 2).
Proof.
  revert self h c.
  induction volumes as [| v vs IH]; intros self h c Hc Hne; [congruence |].
  rewrite feed_cons.
  destruct (update_usage_cost v self h c Hc) as [Hc' _]. cbv zeta in Hc'.
  destruct vs as [| v' vs'].
  - cbn [feed fst]. eexists. split; [exact Hc' |]. split; reflexivity.
  - destruct (IH _ (snd (update_usage v self h)) _ Hc' ltac:(discriminate))
      as (c'' & Hc'' & Hprice & Hvalue).
    exists c''. split; [exact Hc'' |]. split; [exact Hprice | exact Hvalue].
Qed.

(** X11.  The cost follows the usage: with a cost sensor wired, after every
    [update_usage], after every non-empty sequence of samples and after
    every midnight reset the cost sensor shows
    [round (daily usage * price, 2)] for the daily usage just reached, and
    its price is the one it was constructed with. *)
Theorem cost_sensor_follows_usage (self : t) (c : TankDailyCostSensor.t) :
  _cost_sensor self = Some c ->
  (forall volumes h,
     volumes <> [] ->
     exists c',
       _cost_sensor (fst (feed volumes self h)) = Some c'
       /\ TankDailyCostSensor._price_per_litre c'
          = TankDailyCostSensor._price_per_litre c
       /\ TankDailyCostSensor._attr_native_value c'
          = Some (round (_daily_usage (fst (feed volumes self h))
                         * TankDailyCostSensor._price_per_litre c) 2))
  /\ (forall now clock h,
        exists c',
          _cost_sensor (fst (_async_midnight_reset now clock self h))
          = Some c'
          /\ TankDailyCostSensor._price_per_litre c'
             = TankDailyCostSensor._price_per_litre c
          /\ TankDailyCostSensor._attr_native_value c'
             = Some (round
                       (_daily_usage
                          (fst (_async_midnight_reset now clock self h))
                        * TankDailyCostSensor._price_per_litre c) 2)).
Proof.
  intros Hc. split.
  - intros volumes h Hne. apply feed_cost; assumption.
  - intros now clock h.
    unfold _async_midnight_reset, TankDailyCostSensor.update_cost.
    cbn. rewrite Hc. cbn.
    eexists. split; [reflexivity |]. split; reflexivity.
Qed.

Lemma cost_sensor_follows_usage_witness :
  let self := daily_usage_sensor (setup_entities sample_entry) in
  let c := TankDailyCostSensor.__init__ sample_entry DEFAULT_PRICE_PER_LITRE in
  _cost_sensor self = Some c
  /\ [500; 490] <> []
  /\ exists c',
       _cost_sensor (fst (feed [500; 490] self [])) = Some c'
       /\ TankDailyCostSensor._attr_native_value c'
          = Some (round (_daily_usage (fst (feed [500; 490] self []))
                         * TankDailyCostSensor._price_per_litre c) 2).
Proof.
  intros self c.
  assert (Hc : _cost_sensor self = Some c) by reflexivity.
  assert (Hne : [500; 490] <> []) by discriminate.
  split; [exact Hc |]. split; [exact Hne |].
  destruct (proj1 (cost_sensor_follows_usage self c Hc) [500; 490] [] Hne)
    as (c' & Hc' & _ & Hvalue).
  exists c'. split; [exact Hc' | exact Hvalue].
Defined.

(** X12.  With a price that is not negative, the daily cost shown never
    goes down from one sample to the next, and it is never negative once
    the daily usage is not. *)
Theorem daily_cost_nondecreasing (self : t) (c : TankDailyCostSensor.t)
  (v1 v2 : R) (h h' : hass) :
  _cost_sensor self = Some c ->
  0 <= TankDailyCostSensor._price_per_litre c ->
  0 <= _daily_usage self ->
  let self1 := fst (update_usage v1 self h) in
  let self2 := fst (update_usage v2 self1 h') in
  exists c1 c2 cost1 cost2,
    _cost_sensor self1 = Some c1
    /\ _cost_sensor self2 = Some c2
    /\ TankDailyCostSensor._attr_native_value c1 = Some cost1
    /\ TankDailyCostSensor._attr_native_value c2 = Some cost2
    /\ 0 <= cost1 <= cost2.
Proof.
  intros Hc Hprice Husage self1 self2.
  destruct (update_usage_cost v1 self h c Hc) as [Hc1 _].
  cbv zeta in Hc1. fold self1 in Hc1.
  destruct (update_usage_cost v2 self1 h' _ Hc1) as [Hc2 _].
  cbv zeta in Hc2. fold self2 in Hc2. cbn in Hc2.
  eexists. eexists. eexists. eexists.
  split; [exact Hc1 |]. split; [exact Hc2 |].
  split; [reflexivity |]. split; [reflexivity |].
  pose proof (update_usage_nondecreasing v1 self h) as H1.
  pose proof (update_usage_nondecreasing v2 self1 h') as H2.
  fold self1 in H1. fold self2 in H2.
  split.
  - apply round_nonneg. apply Rmult_le_pos; lra.
  - apply round_le. apply Rmult_le_compat_r; assumption.
Qed.

Lemma daily_cost_nondecreasing_witness :
  let self := fst (update_usage 500
                     (daily_usage_sensor (setup_entities sample_entry)) []) in
  let c := TankDailyCostSensor.__init__ sample_entry DEFAULT_PRICE_PER_LITRE in
  0 <= TankDailyCostSensor._price_per_litre c
  /\ 0 <= _daily_usage self
  /\ exists c1 c2 cost1 cost2,
       _cost_sensor (fst (update_usage 490 self [])) = Some c1
       /\ _cost_sensor
            (fst (update_usage 470 (fst (update_usage 490 self [])) []))
          = Some c2
       /\ TankDailyCostSensor._attr_native_value c1 = Some cost1
       /\ TankDailyCostSensor._attr_native_value c2 = Some cost2
       /\ 0 <= cost1 <= cost2.
Proof.
  intros self c.
  assert (Hprice : 0 <= TankDailyCostSensor._price_per_litre c)
    by (cbn; unfold DEFAULT_PRICE_PER_LITRE; lra).
  assert (Husage : 0 <= _daily_usage self) by (cbn; lra).
  split; [exact Hprice |]. split; [exact Husage |].
  refine (daily_cost_nondecreasing self
            {| TankDailyCostSensor._entry := sample_entry;
               TankDailyCostSensor._attr_unique_id := "tank_daily_cost";
               TankDailyCostSensor._price_per_litre := DEFAULT_PRICE_PER_LITRE;
               TankDailyCostSensor._attr_native_value :=
                 Some (round (0 * DEFAULT_PRICE_PER_LITRE) 2) |}
            490 470 [] [] eq_refl Hprice Husage).
Defined.

End AccumulatorSequences.

(** ** The stored data and the restoring *)

Section Restoring.

Import TankDailyUsageSensor.

Lemma date_ltb_irrefl (d : date.t) : date.ltb d d = false.
Proof.
  unfold date.ltb.
  rewrite !Z.ltb_irrefl, !Z.eqb_refl. reflexivity.
Qed.

(** The branches of [async_added_to_hass] that keep the stored values. *)
Lemma added_adopts `{PythonLib} (self : t) (restored : dict)
  (last_data : DailyUsageStoredData.t) (now : datetime.t) :
  DailyUsageStoredData.from_dict restored = Some last_data ->
  DailyUsageStoredData.last_reset last_data = ""%string
  \/ fromisoformat (DailyUsageStoredData.last_reset last_data) = None
  \/ (exists last_reset_dt,
        fromisoformat (DailyUsageStoredData.last_reset last_data)
        = Some last_reset_dt
        /\ date.ltb (datetime.date last_reset_dt) (datetime.date now) = false) ->
  async_added_to_hass (Some restored) now self
  = {| _entry := _entry self;
       _attr_unique_id := _attr_unique_id self;
       _attr_native_value :=
         Some (round (DailyUsageStoredData.daily_usage last_data) 1);
       _attr_last_reset := _attr_last_reset self;
       _daily_usage := DailyUsageStoredData.daily_usage last_data;
       _last_volume := DailyUsageStoredData.last_volume last_data;
       _cost_sensor := _cost_sensor self |}.
Proof.
  intros Hfrom Hcase.
  unfold async_added_to_hass. rewrite Hfrom.
  destruct (String.eqb (DailyUsageStoredData.last_reset last_data) "")
    eqn:Hempty; [reflexivity |].
  destruct Hcase as [Hcase | [Hcase | (dt & Hparse & Hdate)]].
  - apply String.eqb_neq in Hempty. contradiction.
  - rewrite Hcase. reflexivity.
  - rewrite Hparse, Hdate. reflexivity.
Qed.

(** X13.  The stored data round trip: [from_dict] gives back what [as_dict]
    wrote; it returns [None] exactly when the key "native_value" is
    missing; and a missing "daily_usage", "last_volume" or "last_reset"
    reads as [0.0], [None] and the empty string. *)
Theorem stored_data_round_trip :
  (forall data,
     DailyUsageStoredData.from_dict (DailyUsageStoredData.as_dict data)
     = Some data)
  /\ (forall restored,
        DailyUsageStoredData.from_dict restored = None
        <-> key_native_value restored = None)
  /\ (forall restored data,
        DailyUsageStoredData.from_dict restored = Some data ->
        (key_daily_usage restored = None ->
         DailyUsageStoredData.daily_usage data = 0)
        /\ (key_last_volume restored = None ->
            DailyUsageStoredData.last_volume data = None)
        /\ (key_last_reset restored = None ->
            DailyUsageStoredData.last_reset data = ""%string)).
Proof.
  split; [| split].
  - intros [[nv unit] du lv lr]. reflexivity.
  - intros restored.
    unfold DailyUsageStoredData.from_dict, SensorExtraStoredData.from_dict.
    destruct (key_native_value restored); split; intros E;
      try discriminate; reflexivity.
  - intros restored data.
    unfold DailyUsageStoredData.from_dict, SensorExtraStoredData.from_dict.
    destruct (key_native_value restored); [| discriminate].
    intros E. injection E as <-. cbn.
    split; [| split]; intros ->; reflexivity.
Qed.

Lemma stored_data_round_trip_witness :
  let restored :=
    SensorExtraStoredData.as_dict
      {| SensorExtraStoredData.native_value := Some 5;
         SensorExtraStoredData.native_unit_of_measurement := Some "L"%string |} in
  exists data,
    DailyUsageStoredData.from_dict restored = Some data
    /\ key_daily_usage restored = None
    /\ DailyUsageStoredData.daily_usage data = 0
    /\ key_last_reset restored = None
    /\ DailyUsageStoredData.last_reset data = ""%string.
Proof.
  intros restored.
  eexists.
  assert (Hfrom : DailyUsageStoredData.from_dict restored
                  = Some (DailyUsageStoredData.__init__
                            {| SensorExtraStoredData.native_value := Some 5;
                               SensorExtraStoredData.native_unit_of_measurement
                                 := Some "L"%string |} 0 None ""))
    by reflexivity.
  split; [exact Hfrom |].
  destruct (proj2 (proj2 stored_data_round_trip) restored _ Hfrom)
    as (Hdu & _ & Hlr).
  split; [reflexivity |]. split; [exact (Hdu eq_refl) |].
  split; [reflexivity | exact (Hlr eq_refl)].
Defined.

(** X14.  Restoring without a reset: when the stored time stamp is empty,
    or does not parse, or parses to a day that is not before the current
    one, the stored daily usage and last volume are taken over as they
    are, the native value is the stored usage rounded to one decimal, and
    the time of the last reset is not touched. *)
Theorem restore_adopts_stored_values `{PythonLib} (self : t)
  (restored : dict) (last_data : DailyUsageStoredData.t) (now : datetime.t) :
  DailyUsageStoredData.from_dict restored = Some last_data ->
  DailyUsageStoredData.last_reset last_data = ""%string
  \/ fromisoformat (DailyUsageStoredData.last_reset last_data) = None
  \/ (exists last_reset_dt,
        fromisoformat (DailyUsageStoredData.last_reset last_data)
        = Some last_reset_dt
        /\ date.ltb (datetime.date last_reset_dt) (datetime.date now) = false) ->
  let self' := async_added_to_hass (Some restored) now self in
  _daily_usage self' = DailyUsageStoredData.daily_usage last_data
  /\ _last_volume self' = DailyUsageStoredData.last_volume last_data
  /\ _attr_native_value self'
     = Some (round (DailyUsageStoredData.daily_usage last_data) 1)
  /\ _attr_last_reset self' = _attr_last_reset self.
Proof.
  intros Hfrom Hcase self'. unfold self'.
  rewrite (added_adopts self restored last_data now Hfrom Hcase).
  repeat split; reflexivity.
Qed.

Lemma restore_adopts_stored_values_witness :
  let self := daily_usage_sensor (setup_entities sample_entry) in
  let last_data :=
    DailyUsageStoredData.__init__
      {| SensorExtraStoredData.native_value := Some (25 / 2);
         SensorExtraStoredData.native_unit_of_measurement := Some "L"%string |}
      (25 / 2) (Some 450) "2025-01-14T23:50:00" in
  let self' :=
    @async_added_to_hass sample_lib (Some sample_snapshot) sample_stored_at
      self in
  DailyUsageStoredData.from_dict sample_snapshot = Some last_data
  /\ _daily_usage self' = 25 / 2
  /\ _last_volume self' = Some 450.
Proof.
  intros self last_data self'.
  assert (Hfrom : DailyUsageStoredData.from_dict sample_snapshot
                  = Some last_data) by reflexivity.
  split; [exact Hfrom |].
  destruct (@restore_adopts_stored_values sample_lib self sample_snapshot
              last_data sample_stored_at Hfrom
              (or_intror (or_intror
                 (ex_intro _ sample_stored_at (conj eq_refl eq_refl)))))
    as (Hdu & Hlv & _).
  split; [exact Hdu | exact Hlv].
Defined.

(** X15.  Snapshot round trip: take the snapshot of a sensor at [stored_at]
    and restore it at [now] into any sensor, with library functions that
    read back the date they wrote.  If the day of [stored_at] is not before
    the day of [now], the daily usage and the last volume of the sensor
    that was stored come back exactly; if it is before, and the time stamp
    is not empty, the restored sensor starts the day at [0] with no last
    volume. *)
Theorem snapshot_restored `{PythonLib} (stored self : t)
  (stored_at now read_back : datetime.t) :
  fromisoformat (isoformat stored_at) = Some read_back ->
  datetime.date read_back = datetime.date stored_at ->
  let self' :=
    async_added_to_hass
      (Some (DailyUsageStoredData.as_dict
               (extra_restore_state_data stored_at stored)))
      now self in
  (date.ltb (datetime.date stored_at) (datetime.date now) = false ->
   _daily_usage self' = _daily_usage stored
   /\ _last_volume self' = _last_volume stored
   /\ _attr_native_value self' = Some (round (_daily_usage stored) 1))
  /\ (date.ltb (datetime.date stored_at) (datetime.date now) = true ->
      isoformat stored_at <> ""%string ->
      _daily_usage self' = 0
      /\ _last_volume self' = None
      /\ _attr_native_value self' = Some 0
      /\ _attr_last_reset self' = Some (datetime.replace now 0 0 0 0)).
Proof.
  intros Hparse Hdate self'.
  set (data := extra_restore_state_data stored_at stored).
  assert (Hfrom : DailyUsageStoredData.from_dict
                    (DailyUsageStoredData.as_dict data) = Some data)
    by (destruct data as [[nv unit] du lv lr]; reflexivity).
  split.
  - intros Hsame. unfold self'. fold data.
    rewrite (added_adopts self _ data now Hfrom).
    + repeat split; reflexivity.
    + right. right. exists read_back.
      split; [exact Hparse |]. rewrite Hdate. exact Hsame.
  - intros Hbefore Hne. unfold self'. fold data.
    rewrite (added_after_missed_midnight self _ data read_back now Hfrom).
    + repeat split; reflexivity.
    + exact Hne.
    + exact Hparse.
    + rewrite Hdate. exact Hbefore.
Qed.

Lemma snapshot_restored_witness :
  let stored := fst (feed [500; 490] (__init__ sample_entry) []) in
  let self := daily_usage_sensor (setup_entities sample_entry) in
  let self' :=
    @async_added_to_hass sample_lib
      (Some (DailyUsageStoredData.as_dict
               (@extra_restore_state_data sample_lib sample_now stored)))
      sample_now self in
  @fromisoformat sample_lib (@isoformat sample_lib sample_now)
  = Some sample_now
  /\ date.ltb (datetime.date sample_now) (datetime.date sample_now) = false
  /\ _daily_usage self' = _daily_usage stored
  /\ _last_volume self' = _last_volume stored.
Proof.
  intros stored self self'.
  assert (Hparse : @fromisoformat sample_lib (@isoformat sample_lib sample_now)
                   = Some sample_now) by reflexivity.
  assert (Hsame : date.ltb (datetime.date sample_now)
                    (datetime.date sample_now) = false) by reflexivity.
  split; [exact Hparse |]. split; [exact Hsame |].
  destruct (proj1 (@snapshot_restored sample_lib stored self sample_now
                     sample_now sample_now Hparse eq_refl) Hsame)
    as (Hdu & Hlv & _).
  split; [exact Hdu | exact Hlv].
Defined.

(** X16.  What restoring never does: in every branch the wired cost
    sensor, the entry and the unique id stay as they are; and with no
    stored data, or with stored data that lacks "native_value", the sensor
    is not changed at all. *)
Theorem restore_frame `{PythonLib} (self : t) (last_extra_data : option dict)
  (now : datetime.t) :
  let self' := async_added_to_hass last_extra_data now self in
  _cost_sensor self' = _cost_sensor self
  /\ _entry self' = _entry self
  /\ _attr_unique_id self' = _attr_unique_id self
  /\ (last_extra_data = None -> self' = self)
  /\ (forall restored,
        last_extra_data = Some restored ->
        key_native_value restored = None -> self' = self).
Proof.
  cbv zeta.
  assert (Hkept :
    _cost_sensor (async_added_to_hass last_extra_data now self)
    = _cost_sensor self
    /\ _entry (async_added_to_hass last_extra_data now self) = _entry self
    /\ _attr_unique_id (async_added_to_hass last_extra_data now self)
       = _attr_unique_id self).
  { unfold async_added_to_hass.
    destruct last_extra_data as [restored |]; [| repeat split].
    destruct (DailyUsageStoredData.from_dict restored) as [last_data |];
      [| repeat split].
    destruct (String.eqb (DailyUsageStoredData.last_reset last_data) "");
      [repeat split |].
    destruct (fromisoformat (DailyUsageStoredData.last_reset last_data))
      as [last_reset_dt |]; [| repeat split].
    destruct (date.ltb (datetime.date last_reset_dt) (datetime.date now));
      repeat split. }
  destruct Hkept as (Hcost & Hentry & Hid).
  split; [exact Hcost |]. split; [exact Hentry |]. split; [exact Hid |].
  split.
  - intros ->. reflexivity.
  - intros restored -> Hmissing.
    unfold async_added_to_hass, DailyUsageStoredData.from_dict,
      SensorExtraStoredData.from_dict.
    rewrite Hmissing. reflexivity.
Qed.

Lemma restore_frame_witness :
  let self := fst (feed [500; 490] (__init__ sample_entry) []) in
  let restored :=
    {| key_native_value := None;
       key_native_unit_of_measurement := None;
       key_daily_usage := Some 99;
       key_last_volume := Some (Some 1);
       key_last_reset := Some "2025-01-14T23:50:00"%string |} in
  key_native_value restored = None
  /\ @async_added_to_hass sample_lib (Some restored) sample_now self = self.
Proof.
  intros self restored.
  split; [reflexivity |].
  exact (proj2 (proj2 (proj2 (proj2
           (@restore_frame sample_lib self (Some restored) sample_now))))
           restored eq_refl eq_refl).
Defined.

(** X17.  Consumption while offline is counted after a same-day restart:
    when the stored values are adopted with a last volume [lv], the first
    sample [v < lv] after the restore adds [lv - v] to the stored daily
    usage, and a first sample that is not lower adds nothing. *)
Theorem offline_consumption_counted `{PythonLib} (self : t)
  (restored : dict) (last_data : DailyUsageStoredData.t) (now : datetime.t)
  (lv v : R) (h : hass) :
  DailyUsageStoredData.from_dict restored = Some last_data ->
  DailyUsageStoredData.last_reset last_data = ""%string
  \/ fromisoformat (DailyUsageStoredData.last_reset last_data) = None
  \/ (exists last_reset_dt,
        fromisoformat (DailyUsageStoredData.last_reset last_data)
        = Some last_reset_dt
        /\ date.ltb (datetime.date last_reset_dt) (datetime.date now) = false) ->
  DailyUsageStoredData.last_volume last_data = Some lv ->
  let self' :=
    fst (update_usage v (async_added_to_hass (Some restored) now self) h) in
  (v < lv ->
   _daily_usage self'
   = DailyUsageStoredData.daily_usage last_data + (lv - v))
  /\ (lv <= v ->
      _daily_usage self' = DailyUsageStoredData.daily_usage last_data).
Proof.
  intros Hfrom Hcase Hlv self'.
  destruct (update_usage_fields v
              (async_added_to_hass (Some restored) now self) h) as [Eu _].
  fold self' in Eu.
  rewrite (added_adopts self restored last_data now Hfrom Hcase) in Eu.
  cbn in Eu. rewrite Hlv in Eu.
  split; intros Hv; rewrite Eu; destruct (Rlt_dec v lv); lra.
Qed.

Lemma offline_consumption_counted_witness :
  let self := daily_usage_sensor (setup_entities sample_entry) in
  let last_data :=
    DailyUsageStoredData.__init__
      {| SensorExtraStoredData.native_value := Some (25 / 2);
         SensorExtraStoredData.native_unit_of_measurement := Some "L"%string |}
      (25 / 2) (Some 450) "2025-01-14T23:50:00" in
  let self' :=
    fst (update_usage 440
           (@async_added_to_hass sample_lib (Some sample_snapshot)
              sample_stored_at self) []) in
  DailyUsageStoredData.from_dict sample_snapshot = Some last_data
  /\ DailyUsageStoredData.last_volume last_data = Some 450
  /\ 440 < 450
  /\ _daily_usage self'
     = DailyUsageStoredData.daily_usage last_data + (450 - 440).
Proof.
  intros self last_data self'.
  assert (Hfrom : DailyUsageStoredData.from_dict sample_snapshot
                  = Some last_data) by reflexivity.
  assert (Hlv : DailyUsageStoredData.last_volume last_data = Some 450)
    by reflexivity.
  assert (Hv : 440 < 450) by lra.
  split; [exact Hfrom |]. split; [exact Hlv |]. split; [exact Hv |].
  exact (proj1 (@offline_consumption_counted sample_lib self sample_snapshot
                  last_data sample_stored_at 450 440 [] Hfrom
                  (or_intror (or_intror
                     (ex_intro _ sample_stored_at (conj eq_refl eq_refl))))
                  Hlv) Hv).
Defined.

End Restoring.

(** ** The handler and the set-up: what is published *)

Section Publishing.

Lemma update_percentage_value (volume max_vol : R)
  (self : TankFillPercentageSensor.t) (h : hass) :
  let value :=
    if Rgt_dec max_vol 0 then round (volume / max_vol * 100) 1 else 0 in
  TankFillPercentageSensor.update_percentage volume max_vol self h
  = Ok ({| TankFillPercentageSensor._entry :=
             TankFillPercentageSensor._entry self;
           TankFillPercentageSensor._attr_unique_id :=
             TankFillPercentageSensor._attr_unique_id self;
           TankFillPercentageSensor._diameter :=
             TankFillPercentageSensor._diameter self;
           TankFillPercentageSensor._length :=
             TankFillPercentageSensor._length self;
           TankFillPercentageSensor._attr_native_value := Some value |},
        (TankFillPercentageSensor._attr_unique_id self, Some value) :: h).
Proof.
  unfold TankFillPercentageSensor.update_percentage.
  destruct (Rgt_dec max_vol 0) as [Hpos | _]; [| reflexivity].
  unfold truediv.
  destruct (Req_dec_T max_vol 0) as [? | _]; [lra | reflexivity].
Qed.

(** A share of a positive whole, as a percentage rounded to one decimal,
    lies between [0] and [100]. *)
Lemma percentage_bounds (volume max_vol : R) :
  0 < max_vol -> 0 <= volume <= max_vol ->
  0 <= round (volume / max_vol * 100) 1 <= 100.
Proof.
  intros Hpos [Hlo Hhi].
  assert (Hinv : 0 < / max_vol) by (apply Rinv_0_lt_compat; exact Hpos).
  assert (Hq : 0 <= volume / max_vol <= 1).
  { unfold Rdiv. split.
    - apply Rmult_le_pos; lra.
    - assert (Hle : volume * / max_vol <= max_vol * / max_vol)
        by (apply Rmult_le_compat_r; lra).
      rewrite Rinv_r in Hle by lra. exact Hle. }
  split.
  - apply round_nonneg. lra.
  - apply Rle_trans with (round 100 1).
    + apply round_le. lra.
    + rewrite (round_IZR 100 1). lra.
Qed.

(** The run of the handler on an event that carries a number. *)
Lemma sensor_changed_run `{PythonLib} (diameter length : R)
  (event : Event) (w : entities) (h : hass) (st : State) (depth volume : R) :
  new_state event = Some st ->
  is_unknown_or_unavailable (state st) = false ->
  float (state st) = Some depth ->
  calc.calculate_volume depth diameter length = Ok volume ->
  let percentage :=
    if Rgt_dec (calc.max_volume diameter length) 0
    then round (volume / calc.max_volume diameter length * 100) 1
    else 0 in
  let h3 :=
    (TankFillPercentageSensor._attr_unique_id (percentage_sensor w),
     Some percentage)
    :: (TankVolumeSensor._attr_unique_id (volume_sensor w),
        Some (round volume 1))
    :: (TankOilDepthSensor._attr_unique_id (oil_depth_sensor w),
        Some (round (max (diameter - depth) 0) 1))
    :: h in
  _async_sensor_changed diameter length event w h
  = Ok ({| oil_depth_sensor :=
             {| TankOilDepthSensor._entry :=
                  TankOilDepthSensor._entry (oil_depth_sensor w);
                TankOilDepthSensor._attr_unique_id :=
                  TankOilDepthSensor._attr_unique_id (oil_depth_sensor w);
                TankOilDepthSensor._attr_native_value :=
                  Some (round (max (diameter - depth) 0) 1) |};
           volume_sensor :=
             {| TankVolumeSensor._entry :=
                  TankVolumeSensor._entry (volume_sensor w);
                TankVolumeSensor._attr_unique_id :=
                  TankVolumeSensor._attr_unique_id (volume_sensor w);
                TankVolumeSensor._diameter :=
                  TankVolumeSensor._diameter (volume_sensor w);
                TankVolumeSensor._length :=
                  TankVolumeSensor._length (volume_sensor w);
                TankVolumeSensor._attr_native_value :=
                  Some (round volume 1) |};
           percentage_sensor :=
             {| TankFillPercentageSensor._entry :=
                  TankFillPercentageSensor._entry (percentage_sensor w);
                TankFillPercentageSensor._attr_unique_id :=
                  TankFillPercentageSensor._attr_unique_id
                    (percentage_sensor w);
                TankFillPercentageSensor._diameter :=
                  TankFillPercentageSensor._diameter (percentage_sensor w);
                TankFillPercentageSensor._length :=
                  TankFillPercentageSensor._length (percentage_sensor w);
                TankFillPercentageSensor._attr_native_value :=
                  Some percentage |};
           daily_usage_sensor :=
             fst (TankDailyUsageSensor.update_usage volume
                    (daily_usage_sensor w) h3) |},
        snd (TankDailyUsageSensor.update_usage volume
               (daily_usage_sensor w) h3)).
Proof.
  intros Hstate Hknown Hfloat Hvol. cbv zeta.
  unfold _async_sensor_changed.
  rewrite Hstate, Hknown, Hfloat, Hvol. cbn [bind].
  unfold TankOilDepthSensor.update_depth, TankVolumeSensor.update_volume,
    async_write_ha_state.
  cbn [TankOilDepthSensor._attr_unique_id TankOilDepthSensor._attr_native_value
       TankVolumeSensor._attr_unique_id TankVolumeSensor._attr_native_value
       fst snd].
  rewrite update_percentage_value. cbn [bind].
  match goal with
  | |- context [TankDailyUsageSensor.update_usage ?v ?u ?h3] =>
      destruct (TankDailyUsageSensor.update_usage v u h3)
  end.
  reflexivity.
Qed.

(** The eager processing in [async_setup_entry] is the handler, run on the
    fresh entities. *)
Lemma setup_is_handler `{PythonLib} (entry : ConfigEntry)
  (current_state : option State) (h : hass) :
  async_setup_entry entry current_state h
  = _async_sensor_changed (data_tank_diameter entry) (data_tank_length entry)
      {| new_state := current_state |} (setup_entities entry) h.
Proof.
  unfold async_setup_entry, _async_sensor_changed. cbn [new_state].
  destruct current_state as [st |]; [| reflexivity].
  destruct (is_unknown_or_unavailable (state st)); cbn [negb];
    [reflexivity |].
  destruct (float (state st)); reflexivity.
Qed.

Lemma append_injective (s a b : string) :
  String.append s a = String.append s b -> a = b.
Proof.
  induction s as [| ch s IH]; cbn; intros E; [exact E |].
  injection E as E. apply IH. exact E.
Qed.

End Publishing.

Section PublishedValues.

(** X18.  [update_percentage] never divides by zero: with a maximum volume
    that is not positive it publishes [0] whatever the volume, otherwise
    [round (volume / max_vol * 100, 1)], which lies between [0] and [100]
    when the volume lies between [0] and the maximum. *)
Theorem update_percentage_guarded (volume max_vol : R)
  (self : TankFillPercentageSensor.t) (h : hass) :
  exists self' value,
    TankFillPercentageSensor.update_percentage volume max_vol self h
    = Ok (self', (TankFillPercentageSensor._attr_unique_id self, Some value)
                 :: h)
    /\ TankFillPercentageSensor._attr_native_value self' = Some value
    /\ (max_vol <= 0 -> value = 0)
    /\ (0 < max_vol -> value = round (volume / max_vol * 100) 1)
    /\ (0 < max_vol -> 0 <= volume <= max_vol -> 0 <= value <= 100).
Proof.
  pose proof (update_percentage_value volume max_vol self h) as E.
  cbv zeta in E.
  eexists. eexists. split; [exact E |]. split; [reflexivity |].
  destruct (Rgt_dec max_vol 0) as [Hpos | Hneg].
  - split; [intros; lra |]. split; [reflexivity |].
    intros _ Hrange. apply percentage_bounds; assumption.
  - split; [reflexivity |]. split; intros; lra.
Qed.

Lemma update_percentage_guarded_witness :
  let self := TankFillPercentageSensor.__init__ sample_entry 0 200 in
  calc.max_volume 0 200 <= 0
  /\ exists self' value,
       TankFillPercentageSensor.update_percentage 0 (calc.max_volume 0 200)
         self []
       = Ok (self', [(TankFillPercentageSensor._attr_unique_id self,
                      Some value)])
       /\ value = 0.
Proof.
  intros self.
  assert (Hmax : calc.max_volume 0 200 <= 0)
    by (unfold calc.max_volume, math.pi; lra).
  split; [exact Hmax |].
  destruct (update_percentage_guarded 0 (calc.max_volume 0 200) self [])
    as (self' & value & E & _ & Hzero & _).
  exists self', value. split; [exact E | exact (Hzero Hmax)].
Defined.

(** X19.  What a processed reading publishes at the ends, for a tank with
    [d > 0] and [l > 0] and a reading that is a number: the oil depth is
    never negative; a distance [<= 0] publishes the rounded full volume
    and a fill percentage of exactly [100]; a distance [>= d] publishes a
    depth of [0], a volume of [0] and a fill percentage of exactly [0]. *)
Theorem published_values_at_the_ends `{PythonLib} (diameter length : R)
  (event : Event) (w : entities) (h : hass) (st : State) (s : R) :
  0 < diameter -> 0 < length ->
  new_state event = Some st ->
  is_unknown_or_unavailable (state st) = false ->
  float (state st) = Some s ->
  exists w' h' depth_value,
    _async_sensor_changed diameter length event w h = Ok (w', h')
    /\ TankOilDepthSensor._attr_native_value (oil_depth_sensor w')
       = Some depth_value
    /\ 0 <= depth_value
    /\ (s <= 0 ->
        TankVolumeSensor._attr_native_value (volume_sensor w')
        = Some (round (calc.max_volume diameter length) 1)
        /\ TankFillPercentageSensor._attr_native_value (percentage_sensor w')
           = Some 100)
    /\ (diameter <= s ->
        depth_value = 0
        /\ TankVolumeSensor._attr_native_value (volume_sensor w') = Some 0
        /\ TankFillPercentageSensor._attr_native_value (percentage_sensor w')
           = Some 0).
Proof.
  intros Hd Hl Hstate Hknown Hfloat.
  destruct (calculate_volume_total s diameter length) as [volume Hvol].
  pose proof (max_volume_pos diameter length Hd Hl) as Hmax.
  pose proof (sensor_changed_run diameter length event w h st s volume
                Hstate Hknown Hfloat Hvol) as Hrun.
  cbv zeta in Hrun.
  destruct (Rgt_dec (calc.max_volume diameter length) 0) as [_ | ?]; [| lra].
  eexists. eexists. eexists.
  split; [exact Hrun |].
  cbn [oil_depth_sensor volume_sensor percentage_sensor
       TankOilDepthSensor._attr_native_value
       TankVolumeSensor._attr_native_value
       TankFillPercentageSensor._attr_native_value].
  split; [reflexivity |].
  split.
  { apply round_nonneg. unfold max.
    destruct (Rlt_dec (diameter - s) 0); lra. }
  split.
  - intros Hfull.
    assert (Hv : volume = calc.max_volume diameter length).
    { unfold calc.calculate_volume in Hvol.
      destruct (Rge_dec s diameter) as [? | _]; [lra |].
      destruct (Rle_dec s 0) as [_ | ?]; [| lra].
      injection Hvol as <-. reflexivity. }
    rewrite Hv. split; [reflexivity |]. f_equal.
    replace (calc.max_volume diameter length / calc.max_volume diameter length
             * 100) with 100 by (field; lra).
    apply (round_IZR 100 1).
  - intros Hempty.
    assert (Hv : volume = 0).
    { unfold calc.calculate_volume in Hvol.
      destruct (Rge_dec s diameter) as [_ | ?]; [| lra].
      injection Hvol as <-. reflexivity. }
    rewrite Hv. split; [| split].
    + unfold max. destruct (Rlt_dec (diameter - s) 0) as [_ | ?];
        [apply round_0 |].
      replace (diameter - s) with 0 by lra. apply round_0.
    + rewrite round_0. reflexivity.
    + f_equal.
      replace (0 / calc.max_volume diameter length * 100) with 0
        by (unfold Rdiv; ring).
      apply round_0.
Qed.

Lemma published_values_at_the_ends_witness :
  let diameter := data_tank_diameter sample_entry in
  let length := data_tank_length sample_entry in
  let w := setup_entities sample_entry in
  let event := {| new_state := Some {| state := "120" |} |} in
  0 < diameter /\ 0 < length
  /\ @float sample_lib "120" = Some 120
  /\ diameter <= 120
  /\ exists w' h',
       @_async_sensor_changed sample_lib diameter length event w []
       = Ok (w', h')
       /\ TankOilDepthSensor._attr_native_value (oil_depth_sensor w')
          = Some 0
       /\ TankFillPercentageSensor._attr_native_value (percentage_sensor w')
          = Some 0.
Proof.
  intros diameter length w event.
  assert (Hd : 0 < diameter) by (unfold diameter; cbn; lra).
  assert (Hl : 0 < length) by (unfold length; cbn; lra).
  assert (Hfloat : @float sample_lib (state {| state := "120" |}) = Some 120)
    by reflexivity.
  assert (Hover : diameter <= 120) by (unfold diameter; cbn; lra).
  split; [exact Hd |]. split; [exact Hl |]. split; [exact Hfloat |].
  split; [exact Hover |].
  destruct (@published_values_at_the_ends sample_lib diameter length event w
              [] {| state := "120" |} 120 Hd Hl eq_refl eq_refl Hfloat)
    as (w' & h' & dv & Hrun & Hdepth & _ & _ & Hempty).
  destruct (Hempty Hover) as (Hzero & _ & Hpct).
  exists w', h'. split; [exact Hrun |].
  split; [rewrite Hdepth, Hzero; reflexivity | exact Hpct].
Defined.

(** X20.  The order of publication: a processed reading appends to the
    written states, oldest first, the oil depth, the volume, the fill
    percentage and the daily usage, and then the daily cost when a cost
    sensor is wired; nothing that was written before is changed. *)
Theorem handler_writes_in_order `{PythonLib} (diameter length : R)
  (event : Event) (w : entities) (h : hass) (st : State) (s : R) :
  new_state event = Some st ->
  is_unknown_or_unavailable (state st) = false ->
  float (state st) = Some s ->
  exists w' h' volume percentage,
    _async_sensor_changed diameter length event w h = Ok (w', h')
    /\ calc.calculate_volume s diameter length = Ok volume
    /\ let usage :=
         TankDailyUsageSensor._daily_usage (daily_usage_sensor w') in
       h'
       = match TankDailyUsageSensor._cost_sensor (daily_usage_sensor w) with
         | Some c =>
             [(TankDailyCostSensor._attr_unique_id c,
               Some (round (usage * TankDailyCostSensor._price_per_litre c)
                       2))]
         | None => []
         end
         ++ (TankDailyUsageSensor._attr_unique_id (daily_usage_sensor w),
             Some (round usage 1))
         :: (TankFillPercentageSensor._attr_unique_id (percentage_sensor w),
             Some percentage)
         :: (TankVolumeSensor._attr_unique_id (volume_sensor w),
             Some (round volume 1))
         :: (TankOilDepthSensor._attr_unique_id (oil_depth_sensor w),
             Some (round (max (diameter - s) 0) 1))
         :: h.
Proof.
  intros Hstate Hknown Hfloat.
  destruct (calculate_volume_total s diameter length) as [volume Hvol].
  pose proof (sensor_changed_run diameter length event w h st s volume
                Hstate Hknown Hfloat Hvol) as Hrun.
  cbv zeta in Hrun.
  eexists. eexists. exists volume. eexists.
  split; [exact Hrun |]. split; [exact Hvol |].
  cbn [daily_usage_sensor]. cbv zeta.
  destruct (TankDailyUsageSensor._cost_sensor (daily_usage_sensor w))
    as [c |] eqn:Hc.
  - destruct (update_usage_cost volume (daily_usage_sensor w)
                ((TankFillPercentageSensor._attr_unique_id
                    (percentage_sensor w),
                  Some (if Rgt_dec (calc.max_volume diameter length) 0
                        then round (volume / calc.max_volume diameter length
                                    * 100) 1
                        else 0))
                 :: (TankVolumeSensor._attr_unique_id (volume_sensor w),
                     Some (round volume 1))
                 :: (TankOilDepthSensor._attr_unique_id (oil_depth_sensor w),
                     Some (round (max (diameter - s) 0) 1))
                 :: h) c Hc) as [_ Hlog].
    cbv zeta in Hlog. rewrite Hlog. reflexivity.
  - destruct (update_usage_no_cost volume (daily_usage_sensor w)
                ((TankFillPercentageSensor._attr_unique_id
                    (percentage_sensor w),
                  Some (if Rgt_dec (calc.max_volume diameter length) 0
                        then round (volume / calc.max_volume diameter length
                                    * 100) 1
                        else 0))
                 :: (TankVolumeSensor._attr_unique_id (volume_sensor w),
                     Some (round volume 1))
                 :: (TankOilDepthSensor._attr_unique_id (oil_depth_sensor w),
                     Some (round (max (diameter - s) 0) 1))
                 :: h) Hc) as [_ Hlog].
    cbv zeta in Hlog. rewrite Hlog. reflexivity.
Qed.

Lemma handler_writes_in_order_witness :
  let diameter := data_tank_diameter sample_entry in
  let length := data_tank_length sample_entry in
  let w := setup_entities sample_entry in
  let event := {| new_state := Some {| state := "42.5" |} |} in
  @float sample_lib "42.5" = Some (85 / 2)
  /\ exists w' h',
       @_async_sensor_changed sample_lib diameter length event w []
       = Ok (w', h')
       /\ List.length h' = 5%nat.
Proof.
  intros diameter length w event.
  assert (Hfloat : @float sample_lib (state {| state := "42.5" |})
                   = Some (85 / 2)) by reflexivity.
  split; [exact Hfloat |].
  destruct (@handler_writes_in_order sample_lib diameter length event w []
              {| state := "42.5" |} (85 / 2) eq_refl eq_refl Hfloat)
    as (w' & h' & volume & percentage & Hrun & _ & Hlog).
  exists w', h'. split; [exact Hrun |].
  cbv zeta in Hlog. rewrite Hlog. reflexivity.
Defined.

End PublishedValues.

(** ** The handler and the set-up: readings in sequence *)

Section Readings.

(** X21.  What the handler never touches: after any event, processed or
    ignored, every entity has the unique id it had, the volume and the
    percentage sensors their dimensions, the daily usage sensor its time
    of last reset, and a cost sensor is wired afterwards exactly when one
    was before, with the same unique id and price. *)
Theorem handler_keeps_configuration `{PythonLib} (diameter length : R)
  (event : Event) (w : entities) (h : hass) :
  exists w' h',
    _async_sensor_changed diameter length event w h = Ok (w', h')
    /\ TankOilDepthSensor._attr_unique_id (oil_depth_sensor w')
       = TankOilDepthSensor._attr_unique_id (oil_depth_sensor w)
    /\ TankVolumeSensor._attr_unique_id (volume_sensor w')
       = TankVolumeSensor._attr_unique_id (volume_sensor w)
    /\ TankVolumeSensor._diameter (volume_sensor w')
       = TankVolumeSensor._diameter (volume_sensor w)
    /\ TankVolumeSensor._length (volume_sensor w')
       = TankVolumeSensor._length (volume_sensor w)
    /\ TankFillPercentageSensor._attr_unique_id (percentage_sensor w')
       = TankFillPercentageSensor._attr_unique_id (percentage_sensor w)
    /\ TankFillPercentageSensor._diameter (percentage_sensor w')
       = TankFillPercentageSensor._diameter (percentage_sensor w)
    /\ TankFillPercentageSensor._length (percentage_sensor w')
       = TankFillPercentageSensor._length (percentage_sensor w)
    /\ TankDailyUsageSensor._attr_unique_id (daily_usage_sensor w')
       = TankDailyUsageSensor._attr_unique_id (daily_usage_sensor w)
    /\ TankDailyUsageSensor._attr_last_reset (daily_usage_sensor w')
       = TankDailyUsageSensor._attr_last_reset (daily_usage_sensor w)
    /\ option_map
         (fun c => (TankDailyCostSensor._attr_unique_id c,
                    TankDailyCostSensor._price_per_litre c))
         (TankDailyUsageSensor._cost_sensor (daily_usage_sensor w'))
       = option_map
           (fun c => (TankDailyCostSensor._attr_unique_id c,
                      TankDailyCostSensor._price_per_litre c))
           (TankDailyUsageSensor._cost_sensor (daily_usage_sensor w)).
Proof.
  destruct (new_state event) as [st |] eqn:Hstate.
  2: { exists w, h. split; [| repeat split].
       unfold _async_sensor_changed. rewrite Hstate. reflexivity. }
  destruct (is_unknown_or_unavailable (state st)) eqn:Hknown.
  { exists w, h. split; [| repeat split].
    unfold _async_sensor_changed. rewrite Hstate, Hknown. reflexivity. }
  destruct (float (state st)) as [s |] eqn:Hfloat.
  2: { exists w, h. split; [| repeat split].
       unfold _async_sensor_changed. rewrite Hstate, Hknown, Hfloat.
       reflexivity. }
  destruct (calculate_volume_total s diameter length) as [volume Hvol].
  pose proof (sensor_changed_run diameter length event w h st s volume
                Hstate Hknown Hfloat Hvol) as Hrun.
  cbv zeta in Hrun.
  eexists. eexists. split; [exact Hrun |].
  cbn [oil_depth_sensor volume_sensor percentage_sensor daily_usage_sensor
       TankOilDepthSensor._attr_unique_id TankVolumeSensor._attr_unique_id
       TankVolumeSensor._diameter TankVolumeSensor._length
       TankFillPercentageSensor._attr_unique_id
       TankFillPercentageSensor._diameter TankFillPercentageSensor._length].
  do 7 (split; [reflexivity |]).
  match goal with
  | |- context [TankDailyUsageSensor.update_usage ?v ?u ?h3] =>
      destruct (update_usage_frame v u h3) as (_ & Hid & Hreset & _);
      cbv zeta in Hid, Hreset;
      split; [exact Hid |]; split; [exact Hreset |];
      destruct (TankDailyUsageSensor._cost_sensor u) as [c |] eqn:Hc;
      [destruct (update_usage_cost v u h3 c Hc) as [Hc' _];
       cbv zeta in Hc'; rewrite Hc'; reflexivity
      | destruct (update_usage_no_cost v u h3 Hc) as [Hc' _];
        cbv zeta in Hc'; rewrite Hc'; reflexivity]
  end.
Qed.

(** X22.  The daily usage follows the volumes computed: of two readings
    processed one after the other, the second adds to the daily usage the
    drop between the two volumes that [calculate_volume] returned for
    them when the second volume is the lower one, and nothing otherwise;
    either way the second volume is the new baseline. *)
Theorem usage_follows_the_volumes `{PythonLib} (diameter length : R)
  (event1 event2 : Event) (w w1 w2 : entities) (h h1 h2 : hass)
  (st1 st2 : State) (s1 s2 : R) :
  new_state event1 = Some st1 ->
  is_unknown_or_unavailable (state st1) = false ->
  float (state st1) = Some s1 ->
  new_state event2 = Some st2 ->
  is_unknown_or_unavailable (state st2) = false ->
  float (state st2) = Some s2 ->
  _async_sensor_changed diameter length event1 w h = Ok (w1, h1) ->
  _async_sensor_changed diameter length event2 w1 h1 = Ok (w2, h2) ->
  exists v1 v2,
    calc.calculate_volume s1 diameter length = Ok v1
    /\ calc.calculate_volume s2 diameter length = Ok v2
    /\ TankDailyUsageSensor._last_volume (daily_usage_sensor w1) = Some v1
    /\ TankDailyUsageSensor._last_volume (daily_usage_sensor w2) = Some v2
    /\ (v2 < v1 ->
        TankDailyUsageSensor._daily_usage (daily_usage_sensor w2)
        = TankDailyUsageSensor._daily_usage (daily_usage_sensor w1)
          + (v1 - v2))
    /\ (v1 <= v2 ->
        TankDailyUsageSensor._daily_usage (daily_usage_sensor w2)
        = TankDailyUsageSensor._daily_usage (daily_usage_sensor w1)).
Proof.
  intros Hstate1 Hknown1 Hfloat1 Hstate2 Hknown2 Hfloat2 Hrun1 Hrun2.
  destruct (calculate_volume_total s1 diameter length) as [v1 Hv1].
  destruct (calculate_volume_total s2 diameter length) as [v2 Hv2].
  exists v1, v2. split; [exact Hv1 |]. split; [exact Hv2 |].
  rewrite (sensor_changed_run diameter length event1 w h st1 s1 v1
             Hstate1 Hknown1 Hfloat1 Hv1) in Hrun1.
  rewrite (sensor_changed_run diameter length event2 w1 h1 st2 s2 v2
             Hstate2 Hknown2 Hfloat2 Hv2) in Hrun2.
  injection Hrun1 as Hw1 _. injection Hrun2 as Hw2 _.
  assert (Hlast : TankDailyUsageSensor._last_volume (daily_usage_sensor w1)
                  = Some v1).
  { rewrite <- Hw1. cbn [daily_usage_sensor]. apply update_usage_fields. }
  split; [exact Hlast |].
  rewrite <- Hw2. cbn [daily_usage_sensor].
  match goal with
  | |- context [TankDailyUsageSensor.update_usage ?v ?u ?h3] =>
      destruct (update_usage_fields v u h3) as [Eu El]
  end.
  rewrite Hlast in Eu.
  split; [exact El |].
  split; intros Hv; rewrite Eu; destruct (Rlt_dec v2 v1); lra.
Qed.

Lemma usage_follows_the_volumes_witness :
  let diameter := data_tank_diameter sample_entry in
  let length := data_tank_length sample_entry in
  let w := setup_entities sample_entry in
  let event1 := {| new_state := Some {| state := "42.5" |} |} in
  let event2 := {| new_state := Some {| state := "120" |} |} in
  @float sample_lib "42.5" = Some (85 / 2)
  /\ @float sample_lib "120" = Some 120
  /\ exists w1 h1 w2 h2 v1 v2,
       @_async_sensor_changed sample_lib diameter length event1 w []
       = Ok (w1, h1)
       /\ @_async_sensor_changed sample_lib diameter length event2 w1 h1
          = Ok (w2, h2)
       /\ v2 < v1
       /\ TankDailyUsageSensor._daily_usage (daily_usage_sensor w2)
          = TankDailyUsageSensor._daily_usage (daily_usage_sensor w1)
            + (v1 - v2).
Proof.
  intros diameter length w event1 event2.
  split; [reflexivity |]. split; [reflexivity |].
  assert (Hd : 0 < diameter) by (unfold diameter; cbn; lra).
  assert (Hl : 0 < length) by (unfold length; cbn; lra).
  destruct (@sensor_changed_processed sample_lib diameter length
              event1 w [] {| state := "42.5" |} (85 / 2)
              eq_refl eq_refl eq_refl)
    as (x1 & p1 & Hx1 & Hrun1).
  cbv zeta in Hx1, Hrun1.
  match type of Hrun1 with
  | _ = Ok (?w1, ?h1) =>
      destruct (@sensor_changed_processed sample_lib diameter length
                  event2 w1 h1 {| state := "120" |} 120
                  eq_refl eq_refl eq_refl)
        as (x2 & p2 & Hx2 & Hrun2);
      cbv zeta in Hx2, Hrun2
  end.
  destruct (@usage_follows_the_volumes sample_lib diameter length
              event1 event2 w _ _ [] _ _
              {| state := "42.5" |} {| state := "120" |} (85 / 2) 120
              eq_refl eq_refl eq_refl eq_refl eq_refl eq_refl
              Hrun1 Hrun2)
    as (v1 & v2 & Hv1 & Hv2 & _ & _ & Hdrop & _).
  assert (Hlt : v2 < v1).
  { assert (Hin : 0 < diameter - 85 / 2 < diameter)
      by (unfold diameter; cbn; lra).
    destruct (segment_volume_inside (diameter - 85 / 2) diameter length Hin Hl)
      as (u & Hu & Hpos).
    rewrite (calculate_volume_as_segment (85 / 2) diameter length Hd) in Hv1.
    rewrite Hu in Hv1. injection Hv1 as <-.
    unfold calc.calculate_volume in Hv2.
    destruct (Rge_dec 120 diameter) as [_ | Hn];
      [| exfalso; apply Hn; unfold diameter; cbn; lra].
    injection Hv2 as <-. lra. }
  eexists. eexists. eexists. eexists. exists v1, v2.
  split; [exact Hrun1 |]. split; [exact Hrun2 |].
  split; [exact Hlt | exact (Hdrop Hlt)].
Defined.

(** X23.  The start: the processing of the current state at the end of
    [async_setup_entry] is exactly the handler run on the fresh entities;
    so a first reading at start-up sets the baseline, and the daily usage
    and the daily cost it publishes are [0]. *)
Theorem setup_processes_current_state `{PythonLib} (entry : ConfigEntry)
  (current_state : option State) (h : hass) :
  async_setup_entry entry current_state h
  = _async_sensor_changed (data_tank_diameter entry) (data_tank_length entry)
      {| new_state := current_state |} (setup_entities entry) h
  /\ (forall st s,
        current_state = Some st ->
        is_unknown_or_unavailable (state st) = false ->
        float (state st) = Some s ->
        exists volume w' h' c,
          calc.calculate_volume s (data_tank_diameter entry)
            (data_tank_length entry) = Ok volume
          /\ async_setup_entry entry current_state h = Ok (w', h')
          /\ TankDailyUsageSensor._daily_usage (daily_usage_sensor w') = 0
          /\ TankDailyUsageSensor._last_volume (daily_usage_sensor w')
             = Some volume
          /\ TankDailyUsageSensor._attr_native_value (daily_usage_sensor w')
             = Some 0
          /\ TankDailyUsageSensor._cost_sensor (daily_usage_sensor w')
             = Some c
          /\ TankDailyCostSensor._attr_native_value c = Some 0
          /\ TankDailyCostSensor._price_per_litre c
             = get_default (options_price_per_litre entry)
                 DEFAULT_PRICE_PER_LITRE).
Proof.
  split; [apply setup_is_handler |].
  intros st s -> Hknown Hfloat.
  destruct (calculate_volume_total s (data_tank_diameter entry)
              (data_tank_length entry)) as [volume Hvol].
  rewrite setup_is_handler.
  rewrite (sensor_changed_run (data_tank_diameter entry)
             (data_tank_length entry) {| new_state := Some st |}
             (setup_entities entry) h st s volume eq_refl Hknown Hfloat
             Hvol).
  exists volume. eexists. eexists. eexists.
  split; [exact Hvol |]. split; [reflexivity |].
  cbn. rewrite Rmult_0_l, !round_0.
  repeat split; reflexivity.
Qed.

Lemma setup_processes_current_state_witness :
  @float sample_lib "42.5" = Some (85 / 2)
  /\ exists w' h',
       @async_setup_entry sample_lib sample_entry
         (Some {| state := "42.5" |}) []
       = Ok (w', h')
       /\ TankDailyUsageSensor._daily_usage (daily_usage_sensor w') = 0.
Proof.
  assert (Hfloat : @float sample_lib (state {| state := "42.5" |})
                   = Some (85 / 2)) by reflexivity.
  split; [exact Hfloat |].
  destruct (proj2 (@setup_processes_current_state sample_lib sample_entry
                     (Some {| state := "42.5" |}) [])
              {| state := "42.5" |} (85 / 2) eq_refl eq_refl Hfloat)
    as (volume & w' & h' & c & _ & Hrun & Hzero & _).
  exists w', h'. split; [exact Hrun | exact Hzero].
Defined.

(** X24.  The five entities of one entry have five different unique ids,
    whatever the entry id, so every written state names its entity. *)
Theorem unique_ids_distinct (entry : ConfigEntry) :
  let w := setup_entities entry in
  exists c,
    TankDailyUsageSensor._cost_sensor (daily_usage_sensor w) = Some c
    /\ NoDup
         [TankOilDepthSensor._attr_unique_id (oil_depth_sensor w);
          TankVolumeSensor._attr_unique_id (volume_sensor w);
          TankFillPercentageSensor._attr_unique_id (percentage_sensor w);
          TankDailyUsageSensor._attr_unique_id (daily_usage_sensor w);
          TankDailyCostSensor._attr_unique_id c].
Proof.
  cbv zeta. eexists. split; [reflexivity |]. cbn.
  repeat constructor; cbn; intros Hin;
    repeat match goal with
      | H : _ \/ _ |- _ => destruct H as [H | H]
      | H : False |- _ => exact H
      | H : String.append _ _ = String.append _ _ |- _ =>
          apply append_injective in H; discriminate H
      end.
Qed.

End Readings.

(** ** Binary64: where the code departs from exact arithmetic *)

Section Binary64.

Import PrimFloat.
Import binary64.

Local Open Scope float_scope.

(** C1 as stated fails on binary64 numbers: from a baseline of 0.8 the
    strictly decreasing samples 0.3 and 0.1 accumulate
    0.69999999999999996, while the single step to 0.1 adds
    0.70000000000000007, which is also what [0.8 - 0.1] evaluates to. *)
Lemma binary64_total_depends_on_the_steps :
  let self := {| _daily_usage := 0; _last_volume := Some 0.8 |} in
  ltb 0.3 0.8 = true
  /\ ltb 0.1 0.3 = true
  /\ _daily_usage (feed [0.3; 0.1] self) = 0.69999999999999996
  /\ _daily_usage (feed [0.1] self) = 0.70000000000000007
  /\ sub 0.8 0.1 = 0.70000000000000007
  /\ ltb (_daily_usage (feed [0.3; 0.1] self))
         (_daily_usage (feed [0.1] self)) = true.
Proof. vm_compute. repeat split. Qed.

(** C5 as stated fails on binary64 numbers: in the tank of the tests
    (diameter 100, length 200) the sensor distances 1e-20 < 2e-20 lie
    inside [(0, 100)], and the volume computed for the larger one is the
    larger. *)
Lemma binary64_volume_rises :
  ltb 0 1e-20 = true
  /\ ltb 1e-20 2e-20 = true
  /\ ltb 2e-20 100 = true
  /\ @calculate_volume sample_libm 1e-20 100 200 = Ok 1570.7963268048964
  /\ @calculate_volume sample_libm 2e-20 100 200 = Ok 1570.7963268090386
  /\ ltb 1570.7963268048964 1570.7963268090386 = true.
Proof. vm_compute. repeat split. Qed.

(** Next to the ends the computed volumes leave the tank: the segment of
    depth 1e-20 comes out below zero, and the volume at the sensor
    distance 1e-20 above the full tank. *)
Example binary64_volume_leaves_the_tank :
  @segment_volume sample_libm 1e-20 100 200 = Ok (-9.9999999999999969e-09)
  /\ ltb (-9.9999999999999969e-09) 0 = true
  /\ max_volume 100 200 = Ok 1570.7963267948965
  /\ @calculate_volume sample_libm 1e-20 100 200 = Ok 1570.7963268048964
  /\ ltb 1570.7963267948965 1570.7963268048964 = true.
Proof. vm_compute. repeat split. Qed.

(** The clamps are exact: no arithmetic is done on the way to them. *)
Example binary64_clamps :
  @calculate_volume sample_libm 0 100 200 = max_volume 100 200
  /\ @calculate_volume sample_libm (-5) 100 200 = max_volume 100 200
  /\ @calculate_volume sample_libm 100 100 200 = Ok 0
  /\ @calculate_volume sample_libm 110 100 200 = Ok 0.
Proof. vm_compute. repeat split. Qed.

(** Scaling the length is rounded: seven times the volume at length 130 is
    not the volume at length 910. *)
Example binary64_length_scaling_is_rounded :
  @calculate_volume sample_libm 0 100 910 = Ok 7147.1232869167798
  /\ @calculate_volume sample_libm 0 100 130 = Ok 1021.0176124166827
  /\ mul 7 1021.0176124166827 = 7147.1232869167789.
Proof. vm_compute. repeat split. Qed.

(** Squaring the radius of a diameter of 1e200 raises [OverflowError]. *)
Example binary64_squaring_overflows :
  max_volume 1e200 200 = Raise OverflowError
  /\ @calculate_volume sample_libm 0 1e200 200 = Raise OverflowError.
Proof. vm_compute. repeat split. Qed.

End Binary64.
